(** * cifar100_input: the batching state machine of [Dataset] and the
      augmenting wrapper [AugmentedDataset]

    A shallow embedding of [src/cifar100_input.py].  Python integers are [Z],
    numpy arrays indexed along axis 0 are lists, exceptions are values of
    [Py.result], and the two pieces of ambient mutable state the code relies on
    (numpy's global random generator and the TensorFlow session) are threaded
    explicitly. *)

From Stdlib Require Import String ZArith List Bool Lia Permutation.
Import ListNotations.
Open Scope Z_scope.

(** ** Python and numpy primitives used by the source *)

Module Py.

(** The exceptions the code can raise.  [ValueError] carries the message of
    the [raise] statement, which is what tells the two sites of
    [Dataset.get_next_batch] apart; the text of an [IndexError] is left out. *)
Inductive exn : Type :=
| ValueError (msg : string)
| IndexError.

Inductive result (A : Type) : Type :=
| Ok (a : A)
| Raise (e : exn).

Arguments Ok {A} a.
Arguments Raise {A} e.

(** One bound of [a[lo:hi]]: a negative bound counts from the end, and the
    outcome is clipped to [0 .. len]. *)
Definition slice_bound (len i : Z) : Z :=
  if i <? 0 then Z.max (i + len) 0 else Z.min i len.

(** [a[lo:hi]] along axis 0. *)
Definition slice {A : Type} (a : list A) (lo hi : Z) : list A :=
  let len := Z.of_nat (length a) in
  let lo' := slice_bound len lo in
  let hi' := slice_bound len hi in
  firstn (Z.to_nat (hi' - lo')) (skipn (Z.to_nat lo') a).

(** [a[i]] for an integer taken from an index array: [-len <= i < len], the
    negative ones counted from the end. *)
Definition item {A : Type} (a : list A) (i : Z) : result A :=
  let len := Z.of_nat (length a) in
  if (i <? - len) || (len <=? i) then Raise IndexError
  else match nth_error a (Z.to_nat (if i <? 0 then i + len else i)) with
       | Some x => Ok x
       | None => Raise IndexError
       end.

(** [a[idx, ...]] for an integer index array [idx]: the rows of [a] at the
    positions listed, in that order. *)
Fixpoint fancy_index {A : Type} (a : list A) (idx : list Z) : result (list A) :=
  match idx with
  | [] => Ok []
  | i :: idx' =>
      match item a i with
      | Raise e => Raise e
      | Ok x =>
          match fancy_index a idx' with
          | Raise e => Raise e
          | Ok rows => Ok (x :: rows)
          end
      end
  end.

(** [np.arange(n)] *)
Definition arange (n : Z) : list Z := map Z.of_nat (seq 0 (Z.to_nat n)).

(** The tuples [get_next_batch] returns, of two or of three components, and
    [t[0]], [t[1]], [t[2]] on them. *)
Inductive ret (X Y : Type) : Type :=
| Tuple2 (batch_xs : list X) (batch_ys : list Y)
| Tuple3 (batch_xs : list X) (batch_ys : list Y) (epoch_done : bool).

Arguments Tuple2 {X Y} batch_xs batch_ys.
Arguments Tuple3 {X Y} batch_xs batch_ys epoch_done.

Definition ret0 {X Y : Type} (t : ret X Y) : list X :=
  match t with Tuple2 bx _ | Tuple3 bx _ _ => bx end.

Definition ret1 {X Y : Type} (t : ret X Y) : list Y :=
  match t with Tuple2 _ b | Tuple3 _ b _ => b end.

Definition ret2 {X Y : Type} (t : ret X Y) : result bool :=
  match t with
  | Tuple2 _ _ => Raise IndexError
  | Tuple3 _ _ epoch_done => Ok epoch_done
  end.

End Py.

Import Py.

(** ** class Dataset *)

Module Dataset.

Section Defs.

(** An image, a label, and the state of numpy's global generator. *)
Variables Image Label RNG : Type.

(** [np.random.permutation(n)]: the drawn array and the generator afterwards. *)
Variable permutation : Z -> RNG -> list Z * RNG.

Record t : Type := mk {
  xs : list Image;
  n : Z;
  ys : list Label;
  batch_start : Z;
  cur_order : list Z
}.

Definition set_batch_start (self : t) (v : Z) : t :=
  mk (xs self) (n self) (ys self) v (cur_order self).

Definition set_cur_order (self : t) (v : list Z) : t :=
  mk (xs self) (n self) (ys self) (batch_start self) v.

(** [Dataset.__init__] *)
Definition init (xs0 : list Image) (ys0 : list Label) (g : RNG) : t * RNG :=
  let n0 := Z.of_nat (length xs0) in
  let (order, g') := permutation n0 g in
  (mk xs0 n0 ys0 0 order, g').

Definition too_large : string := "Batch size can be at most the dataset size".
Definition pass_complete : string := "Pass through the dataset is complete.".

(** [Dataset.get_next_batch].  The outcome is the value returned or the
    exception raised, together with the object and the generator as the call
    leaves them (an exception keeps the assignments made before it). *)
Definition get_next_batch (self : t) (batch_size : Z)
    (multiple_passes reshuffle_after_pass : bool) (g : RNG)
  : result (ret Image Label) * t * RNG :=
  if n self <? batch_size then (Raise (ValueError too_large), self, g)
  else if negb multiple_passes then
    let actual_batch_size := Z.min batch_size (n self - batch_start self) in
    if actual_batch_size <=? 0 then (Raise (ValueError pass_complete), self, g)
    else
      let batch_end := batch_start self + actual_batch_size in
      match fancy_index (xs self)
              (slice (cur_order self) (batch_start self) batch_end) with
      | Raise e => (Raise e, self, g)
      | Ok batch_xs =>
          match fancy_index (ys self)
                  (slice (cur_order self) (batch_start self) batch_end) with
          | Raise e => (Raise e, self, g)
          | Ok batch_ys =>
              (Ok (Tuple2 batch_xs batch_ys),
               set_batch_start self (batch_start self + actual_batch_size), g)
          end
      end
  else
    let actual_batch_size := Z.min batch_size (n self - batch_start self) in
    let epoch_done := actual_batch_size <? batch_size in
    let '(self1, g1) :=
      if epoch_done then
        let '(self0, g0) :=
          if reshuffle_after_pass
          then let (order, g') := permutation (n self) g in
               (set_cur_order self order, g')
          else (self, g) in
        (set_batch_start self0 0, g0)
      else (self, g) in
    let batch_end := batch_start self1 + batch_size in
    match fancy_index (xs self1)
            (slice (cur_order self1) (batch_start self1) batch_end) with
    | Raise e => (Raise e, self1, g1)
    | Ok batch_xs =>
        match fancy_index (ys self1)
                (slice (cur_order self1) (batch_start self1) batch_end) with
        | Raise e => (Raise e, self1, g1)
        | Ok batch_ys =>
            (Ok (Tuple3 batch_xs batch_ys epoch_done),
             set_batch_start self1 (batch_start self1 + actual_batch_size), g1)
        end
    end.

(** A caller draining one bounded pass: [get_next_batch(batch_size)] is
    called until it raises; the batches returned so far and the exception
    that ended the loop are handed back.  [None] only when [fuel] calls did
    not reach an exception. *)
Fixpoint drain (fuel : nat) (self : t) (batch_size : Z) (g : RNG)
  : option (list (ret Image Label) * exn * t * RNG) :=
  match fuel with
  | O => None
  | S fuel' =>
      match get_next_batch self batch_size false true g with
      | (Raise e, self', g') => Some ([], e, self', g')
      | (Ok b, self', g') =>
          match drain fuel' self' batch_size g' with
          | Some (bs, e, self'', g'') => Some (b :: bs, e, self'', g'')
          | None => None
          end
      end
  end.

End Defs.

Arguments mk {Image Label} xs n ys batch_start cur_order.
Arguments xs {Image Label} t.
Arguments n {Image Label} t.
Arguments ys {Image Label} t.
Arguments batch_start {Image Label} t.
Arguments cur_order {Image Label} t.
Arguments set_batch_start {Image Label} self v.
Arguments set_cur_order {Image Label} self v.
Arguments init {Image Label RNG} permutation xs0 ys0 g.
Arguments get_next_batch {Image Label RNG} permutation self batch_size
  multiple_passes reshuffle_after_pass g.
Arguments drain {Image Label RNG} permutation fuel self batch_size g.

End Dataset.

(** ** class AugmentedDataset *)

Module AugmentedDataset.

Section Defs.

Variables Image Label RNG : Type.

(** The state of the TensorFlow session: whatever the ops of the graph read
    and advance when they run (the random flips draw from it). *)
Variable Sess : Type.

Variable permutation : Z -> RNG -> list Z * RNG.

(** What [sess.run(augmented, feed_dict={x_input_placeholder: v})] computes
    from the fed array [v] and the session.  The run is taken to return: an
    exception raised inside [sess.run] is not represented, and no statement
    below speaks about one. *)
Definition graph : Type := list Image -> Sess -> list Image * Sess.

Record t : Type := mk {
  raw_datasubset : Dataset.t Image Label;
  augmented : graph;
  xs : option (list Image);
  n : option Z;
  ys : option (list Label)
}.

Definition set_raw_datasubset (self : t) (raw : Dataset.t Image Label) : t :=
  mk raw (augmented self) (xs self) (n self) (ys self).

(** [AugmentedDataset.__init__] *)
Definition init (raw_datasubset0 : Dataset.t Image Label) (augmented0 : graph)
    (to_cache : bool) (s : Sess) : t * Sess :=
  if to_cache then
    let (xs0, s') := augmented0 (Dataset.xs raw_datasubset0) s in
    (mk raw_datasubset0 augmented0 (Some xs0)
        (Some (Z.of_nat (length xs0))) (Some (Dataset.ys raw_datasubset0)), s')
  else (mk raw_datasubset0 augmented0 None None None, s).

(** [AugmentedDataset.get_next_batch].  The inner sampler is the object the
    wrapper holds, so its cursor and order move with every call. *)
Definition get_next_batch (self : t) (batch_size : Z)
    (multiple_passes reshuffle_after_pass : bool) (g : RNG) (s : Sess)
  : result (list Image * list Label * bool) * t * RNG * Sess :=
  let '(r, raw', g') :=
    Dataset.get_next_batch permutation (raw_datasubset self) batch_size
      multiple_passes reshuffle_after_pass g in
  let self' := set_raw_datasubset self raw' in
  match r with
  | Raise e => (Raise e, self', g', s)
  | Ok raw_batch =>
      match ret2 raw_batch with
      | Raise e => (Raise e, self', g', s)
      | Ok epoch_done =>
          let (images, s') := augmented self (ret0 raw_batch) s in
          (Ok (images, ret1 raw_batch, epoch_done), self', g', s')
      end
  end.

(** [tf.map_fn(fn, elems)] for an op [fn] that may read and advance the
    session: one run of [fn] per row. *)
Fixpoint map_fn (fn : Image -> Sess -> Image * Sess) (elems : list Image)
    (s : Sess) : list Image * Sess :=
  match elems with
  | [] => ([], s)
  | x :: rest =>
      let (y, s1) := fn x s in
      let (out, s2) := map_fn fn rest s1 in
      (y :: out, s2)
  end.

(** The session after [fn] has run on every row of [elems]. *)
Definition sess_after (fn : Image -> Sess -> Image * Sess)
    (elems : list Image) (s : Sess) : Sess :=
  fold_left (fun s0 x => snd (fn x s0)) elems s.

(** The reading of a cached wrapper as a plain sampler over the precomputed
    set: the [Dataset] whose examples are the wrapper's [xs], [n], [ys] and
    whose cursor and order are those of the wrapped sampler. *)
Definition precomputed_sampler (self : t) : option (Dataset.t Image Label) :=
  match xs self, n self, ys self with
  | Some xs0, Some n0, Some ys0 =>
      Some (Dataset.mk xs0 n0 ys0
              (Dataset.batch_start (raw_datasubset self))
              (Dataset.cur_order (raw_datasubset self)))
  | _, _, _ => None
  end.

(** A batch of either arity as the triple the wrapper would return. *)
Definition as_triple (r : result (ret Image Label))
  : result (list Image * list Label * bool) :=
  match r with
  | Raise e => Raise e
  | Ok raw_batch =>
      match ret2 raw_batch with
      | Raise e => Raise e
      | Ok epoch_done => Ok (ret0 raw_batch, ret1 raw_batch, epoch_done)
      end
  end.

End Defs.

Arguments mk {Image Label Sess} raw_datasubset augmented xs n ys.
Arguments raw_datasubset {Image Label Sess} t.
Arguments augmented {Image Label Sess} t.
Arguments xs {Image Label Sess} t.
Arguments n {Image Label Sess} t.
Arguments ys {Image Label Sess} t.
Arguments set_raw_datasubset {Image Label Sess} self raw.
Arguments init {Image Label Sess} raw_datasubset0 augmented0 to_cache s.
Arguments get_next_batch {Image Label RNG Sess} permutation self batch_size
  multiple_passes reshuffle_after_pass g s.
Arguments map_fn {Image Sess} fn elems s.
Arguments sess_after {Image Sess} fn elems s.
Arguments precomputed_sampler {Image Label Sess} self.
Arguments as_triple {Image Label} r.

End AugmentedDataset.

(** ** class AugmentedCIFAR100Data *)

Module AugmentedCIFAR100Data.

Section Defs.

Variables Image Label Sess : Type.

(** [tf.image.random_flip_left_right] on one image. *)
Variable random_flip_left_right : Image -> Sess -> Image * Sess.

(** The fields of a loaded [CIFAR100Data] the wrapper reads. *)
Record raw : Type := mk_raw {
  raw_train_data : Dataset.t Image Label;
  raw_eval_data : Dataset.t Image Label;
  raw_label_names : list string
}.

Record t : Type := mk {
  image_size : Z;
  train_data : AugmentedDataset.t Image Label Sess;
  eval_data : AugmentedDataset.t Image Label Sess;
  label_names : list string
}.

(** [AugmentedCIFAR100Data.__init__]: the evaluation wrapper is built with
    [to_cache = 1]. *)
Definition init (raw_cifar100data : raw) (s : Sess) : t * Sess :=
  let flipped := AugmentedDataset.map_fn random_flip_left_right in
  let (train, s1) :=
    AugmentedDataset.init (raw_train_data raw_cifar100data) flipped false s in
  let (eval, s2) :=
    AugmentedDataset.init (raw_eval_data raw_cifar100data) flipped true s1 in
  (mk 32 train eval (raw_label_names raw_cifar100data), s2).

End Defs.

Arguments mk_raw {Image Label} raw_train_data raw_eval_data raw_label_names.
Arguments image_size {Image Label Sess} t.
Arguments train_data {Image Label Sess} t.
Arguments eval_data {Image Label Sess} t.
Arguments label_names {Image Label Sess} t.
Arguments init {Image Label Sess} random_flip_left_right raw_cifar100data s.

End AugmentedCIFAR100Data.

(** ** class CIFAR100Data *)

Module CIFAR100Data.

(** The element types of an array, as far as the loader tells them apart. *)
Inductive dtype : Type :=
| uint8
| other_dtype.

(** A two-dimensional array: [cols] entries in each of its rows. *)
Record ndarray2 : Type := mk_array {
  dtype_of : dtype;
  cols : nat;
  rows : list (list Z)
}.

(** The dictionary unpickled from a data file, as far as the loader reads
    it; [None] stands for an absent key. *)
Record datafile : Type := mk_datafile {
  data : option ndarray2;
  fine_labels : option (list Z)
}.

(** The dictionary unpickled from the meta file. *)
Record metafile : Type := mk_metafile {
  fine_label_names : option (list string)
}.

(** What loading can raise: a missing key, the failed [assert], the
    [ValueError] of [reshape], and a label name that does not decode. *)
Inductive exn : Type :=
| KeyError (key : string)
| AssertionError
| ReshapeValueError
| UnicodeDecodeError.

Inductive outcome (A : Type) : Type :=
| Return (a : A)
| Throw (e : exn).

Arguments Return {A} a.
Arguments Throw {A} e.

(** An image of shape (32, 32, 3): rows, columns, channels. *)
Definition image : Type := list (list (list Z)).

(** [count] consecutive pieces of [size] entries. *)
Fixpoint chunks {A : Type} (count size : nat) (l : list A) : list (list A) :=
  match count with
  | O => []
  | S count' => firstn size l :: chunks count' size (skipn size l)
  end.

(** [a.reshape((n, 3, 32, 32))] for [n = a.shape[0]]: the entries in row-major
    order, regrouped; refused when the sizes differ. *)
Definition reshape_n_3_32_32 (a : ndarray2)
  : outcome (list (list (list (list Z)))) :=
  let n := length (rows a) in
  if (n * cols a =? n * (3 * 32 * 32))%nat then
    Return (map (fun img => map (chunks 32 32) (chunks 3 1024 img))
              (chunks n 3072 (concat (rows a))))
  else Throw ReshapeValueError.

(** [x.transpose(0, 2, 3, 1)] on shape (n, 3, 32, 32): entry [i, r, c, ch] of
    the outcome is entry [i, ch, r, c] of [x]. *)
Definition transpose_0_2_3_1 (x : list (list (list (list Z)))) : list image :=
  map (fun img =>
         map (fun r =>
                map (fun c =>
                       map (fun ch => nth c (nth r (nth ch img []) []) 0)
                         (seq 0 3))
                  (seq 0 32))
           (seq 0 32))
    x.

(** [CIFAR100Data._load_datafile], from the unpickled dictionary on. *)
Definition _load_datafile (data_dict : datafile)
  : outcome (list image * list Z) :=
  match data data_dict with
  | None => Throw (KeyError "data")
  | Some image_data =>
      match dtype_of image_data with
      | uint8 =>
          match reshape_n_3_32_32 image_data with
          | Throw e => Throw e
          | Return reshaped =>
              match fine_labels data_dict with
              | None => Throw (KeyError "fine_labels")
              | Some labels =>
                  Return (transpose_0_2_3_1 reshaped, labels)
              end
          end
      | other_dtype => Throw AssertionError
      end
  end.

Section Init.

Variable RNG : Type.
Variable permutation : Z -> RNG -> list Z * RNG.

(** [bytes.decode('utf-8')] *)
Variable decode : string -> option string.

(** The loop that decodes the label names in place, one after the other. *)
Fixpoint decode_names (names : list string) : outcome (list string) :=
  match names with
  | [] => Return []
  | name :: rest =>
      match decode name with
      | None => Throw UnicodeDecodeError
      | Some s =>
          match decode_names rest with
          | Throw e => Throw e
          | Return out => Return (s :: out)
          end
      end
  end.

(** [CIFAR100Data.__init__], from the three unpickled dictionaries on. *)
Definition init (train_file eval_file : datafile) (meta : metafile) (g : RNG)
  : outcome (AugmentedCIFAR100Data.raw image Z) * RNG :=
  match _load_datafile train_file with
  | Throw e => (Throw e, g)
  | Return (train_images, train_labels) =>
      match _load_datafile eval_file with
      | Throw e => (Throw e, g)
      | Return (eval_images, eval_labels) =>
          match fine_label_names meta with
          | None => (Throw (KeyError "fine_label_names"), g)
          | Some names =>
              match decode_names names with
              | Throw e => (Throw e, g)
              | Return label_names =>
                  let (train_data, g1) :=
                    Dataset.init permutation train_images train_labels g in
                  let (eval_data, g2) :=
                    Dataset.init permutation eval_images eval_labels g1 in
                  (Return (AugmentedCIFAR100Data.mk_raw train_data eval_data
                             label_names), g2)
              end
          end
      end
  end.

End Init.

Arguments decode_names decode names : assert.
Arguments init {RNG} permutation decode train_file eval_file meta g.

End CIFAR100Data.

(** ** Callers of [Dataset.get_next_batch] *)

Module Loop.

Section Defs.

Variables Image Label RNG : Type.
Variable permutation : Z -> RNG -> list Z * RNG.

(** A training loop: [k] calls of
    [get_next_batch(batch_size, multiple_passes=True, reshuffle_after_pass)];
    an exception ends it. *)
Fixpoint draw (k : nat) (self : Dataset.t Image Label) (batch_size : Z)
    (reshuffle_after_pass : bool) (g : RNG)
  : result (list (ret Image Label)) * Dataset.t Image Label * RNG :=
  match k with
  | O => (Ok [], self, g)
  | S k' =>
      match Dataset.get_next_batch permutation self batch_size true
              reshuffle_after_pass g with
      | (Raise e, self', g') => (Raise e, self', g')
      | (Ok b, self', g') =>
          match draw k' self' batch_size reshuffle_after_pass g' with
          | (Raise e, self'', g'') => (Raise e, self'', g'')
          | (Ok bs, self'', g'') => (Ok (b :: bs), self'', g'')
          end
      end
  end.

End Defs.

Arguments draw {Image Label RNG} permutation k self batch_size
  reshuffle_after_pass g.

End Loop.

(** ** Well-formed states *)

Section Invariants.

Variables Image Label : Type.

(** LabeledExampleSet: [len(images) == len(labels) == count]. *)
Definition example_set_ok (d : Dataset.t Image Label) : Prop :=
  Dataset.n d = Z.of_nat (length (Dataset.xs d))
  /\ length (Dataset.ys d) = length (Dataset.xs d).

(** BatchSampler: [order] is a permutation of [[0, count)] and
    [0 <= cursor <= count]. *)
Definition sampler_inv (d : Dataset.t Image Label) : Prop :=
  Permutation (Dataset.cur_order d) (arange (Dataset.n d))
  /\ 0 <= Dataset.batch_start d <= Dataset.n d.

(** A returned batch holds the examples at the positions listed in
    [window], in that order. *)
Definition batch_of_window (xs0 : list Image) (ys0 : list Label)
    (window : list Z) (b : ret Image Label) : Prop :=
  exists batch_xs batch_ys,
    b = Tuple2 batch_xs batch_ys
    /\ fancy_index xs0 window = Ok batch_xs
    /\ fancy_index ys0 window = Ok batch_ys
    /\ length batch_xs = length window
    /\ length batch_ys = length window.

End Invariants.

Arguments example_set_ok {Image Label} d.
Arguments sampler_inv {Image Label} d.
Arguments batch_of_window {Image Label} xs0 ys0 window b.

(** ** A sampler and its results under a per-image function *)

Section Relabel.

Variables Image Label : Type.
Variable T : Image -> Image.

(** The sampler over the images [T x], everything else as it was. *)
Definition map_images (d : Dataset.t Image Label) : Dataset.t Image Label :=
  Dataset.mk (map T (Dataset.xs d)) (Dataset.n d) (Dataset.ys d)
    (Dataset.batch_start d) (Dataset.cur_order d).

Definition map_ret (b : ret Image Label) : ret Image Label :=
  match b with
  | Tuple2 bx by_ => Tuple2 (map T bx) by_
  | Tuple3 bx by_ e => Tuple3 (map T bx) by_ e
  end.

Definition map_result (r : result (ret Image Label))
  : result (ret Image Label) :=
  match r with
  | Ok b => Ok (map_ret b)
  | Raise e => Raise e
  end.

End Relabel.

Arguments map_images {Image Label} T d.
Arguments map_ret {Image Label} T b.
Arguments map_result {Image Label} T r.

(** ** Concrete collaborators used to run the model *)

Module Sample.

(** A generator whose state counts the draws made so far; the [g]-th draw
    rotates [arange n] by [g] places. *)
Definition rotation (n : Z) (g : nat) : list Z * nat :=
  (skipn g (arange n) ++ firstn g (arange n), S g).

(** A session holding the coin flips still to come, and a flip that reverses
    a row of pixels when the next coin says so. *)
Definition coin_flip (img : list Z) (s : list bool) : list Z * list bool :=
  match s with
  | [] => (img, [])
  | c :: s' => ((if c then rev img else img), s')
  end.

(** Three examples, cursor on the last position of the pass. *)
Definition three_at_two : Dataset.t Z Z :=
  Dataset.mk [10; 20; 30] 3 [1; 2; 3] 2 [0; 1; 2].

(** Three examples, nothing consumed yet. *)
Definition three_fresh : Dataset.t Z Z :=
  Dataset.mk [10; 20; 30] 3 [1; 2; 3] 0 [0; 1; 2].

(** Ten examples. *)
Definition ten_xs : list Z := [0; 10; 20; 30; 40; 50; 60; 70; 80; 90].
Definition ten_ys : list Z := [0; 1; 2; 3; 4; 5; 6; 7; 8; 9].

(** One two-pixel image, in a sampler that has consumed nothing. *)
Definition one_image : Dataset.t (list Z) Z :=
  Dataset.mk [[1; 2]] 1 [7] 0 [0].

(** The graph of [AugmentedCIFAR100Data] over these flips. *)
Definition flipped : AugmentedDataset.graph (list Z) (list bool) :=
  AugmentedDataset.map_fn coin_flip.

(** The caching wrapper of [one_image], built in a session whose first coin
    flips and whose second does not, and the session it leaves. *)
Definition cached_wrapper
  : AugmentedDataset.t (list Z) Z (list bool) * list bool :=
  AugmentedDataset.init one_image flipped true [true; false].

(** A loaded data set whose training and evaluation parts are [one_image]. *)
Definition loaded : AugmentedCIFAR100Data.raw (list Z) Z :=
  AugmentedCIFAR100Data.mk_raw one_image one_image ["apple"%string].

End Sample.

(** ** More concrete inputs *)

Module Fixture.

(** Ten examples in the order 0, 1, ..., 9, cursor on 8. *)
Definition ten_at_eight : Dataset.t Z Z :=
  Dataset.mk Sample.ten_xs 10 Sample.ten_ys 8 [0; 1; 2; 3; 4; 5; 6; 7; 8; 9].

(** One row of 3072 bytes: 0, 1, ..., 255, 0, 1, ... *)
Definition row_3072 : list Z :=
  map (fun k => Z.of_nat k mod 256) (seq 0 3072).

Definition one_row : CIFAR100Data.ndarray2 :=
  CIFAR100Data.mk_array CIFAR100Data.uint8 3072 [row_3072].

(** A data file with that row and the label 5, and a meta file with one
    name. *)
Definition one_file : CIFAR100Data.datafile :=
  CIFAR100Data.mk_datafile (Some one_row) (Some [5]).

Definition one_name : CIFAR100Data.metafile :=
  CIFAR100Data.mk_metafile (Some ["apple"%string]).

(** A codec that accepts every name as it is. *)
Definition plain (name : string) : option string := Some name.

(** The images [one_file] loads to. *)
Definition one_file_images : list CIFAR100Data.image :=
  match CIFAR100Data._load_datafile one_file with
  | CIFAR100Data.Return (images, _) => images
  | CIFAR100Data.Throw _ => []
  end.

(** [CIFAR100Data] as built from [one_file] twice. *)
Definition one_file_data : AugmentedCIFAR100Data.raw CIFAR100Data.image Z :=
  AugmentedCIFAR100Data.mk_raw
    (Dataset.mk one_file_images 1 [5] 0 [0])
    (Dataset.mk one_file_images 1 [5] 0 [0])
    ["apple"%string].

End Fixture.

(** ** Slices and index arrays *)

Section PyFacts.

Context {A : Type}.

Lemma slice_in_range (a : list A) (lo hi : Z) :
  0 <= lo <= hi -> hi <= Z.of_nat (length a) ->
  slice a lo hi = firstn (Z.to_nat (hi - lo)) (skipn (Z.to_nat lo) a).
Proof.
  intros Hlo Hhi. unfold slice, slice_bound.
  destruct (Z.ltb_spec lo 0); [lia|].
  destruct (Z.ltb_spec hi 0); [lia|].
  rewrite !Z.min_l by lia. reflexivity.
Qed.

Lemma length_slice (a : list A) (lo hi : Z) :
  0 <= lo <= hi -> hi <= Z.of_nat (length a) ->
  Z.of_nat (length (slice a lo hi)) = hi - lo.
Proof.
  intros Hlo Hhi. rewrite slice_in_range by assumption.
  rewrite length_firstn, length_skipn. lia.
Qed.

Lemma slice_incl (a : list A) (lo hi : Z) : incl (slice a lo hi) a.
Proof.
  unfold slice. intros x Hx.
  set (k := Z.to_nat _) in Hx. set (j := Z.to_nat _) in Hx.
  rewrite <- (firstn_skipn j a). apply in_or_app. right.
  rewrite <- (firstn_skipn k (skipn j a)). apply in_or_app. left. exact Hx.
Qed.

Lemma Forall_slice (P : A -> Prop) (a : list A) (lo hi : Z) :
  Forall P a -> Forall P (slice a lo hi).
Proof.
  intros H. apply (incl_Forall (slice_incl a lo hi) H).
Qed.

Lemma slice_app_next (a : list A) (lo mid : Z) :
  0 <= lo <= mid -> mid <= Z.of_nat (length a) ->
  skipn (Z.to_nat lo) a = slice a lo mid ++ skipn (Z.to_nat mid) a.
Proof.
  intros Hlo Hmid. rewrite slice_in_range by assumption.
  replace (Z.to_nat mid) with (Z.to_nat (mid - lo) + Z.to_nat lo)%nat by lia.
  rewrite <- skipn_skipn. symmetry. apply firstn_skipn.
Qed.

Lemma item_in_range (a : list A) (i : Z) :
  0 <= i < Z.of_nat (length a) -> exists x, item a i = Ok x.
Proof.
  intros Hi. unfold item.
  destruct (Z.ltb_spec i (- Z.of_nat (length a))); [lia|].
  destruct (Z.leb_spec (Z.of_nat (length a)) i); [lia|]. simpl.
  destruct (Z.ltb_spec i 0); [lia|].
  destruct (nth_error a (Z.to_nat i)) eqn:E; [eauto|].
  apply nth_error_None in E. lia.
Qed.

Lemma item_raises (a : list A) (i : Z) (e : exn) :
  item a i = Raise e -> e = IndexError.
Proof.
  unfold item. destruct (_ || _); [congruence|].
  destruct (nth_error _ _); congruence.
Qed.

Lemma fancy_index_raises (a : list A) (idx : list Z) (e : exn) :
  fancy_index a idx = Raise e -> e = IndexError.
Proof.
  induction idx as [|i idx IH]; simpl; [discriminate|].
  destruct (item a i) eqn:Ei.
  - destruct (fancy_index a idx); [discriminate|].
    intros H. apply IH. congruence.
  - intros H. apply (item_raises a i). congruence.
Qed.

Lemma fancy_index_in_range (a : list A) (idx : list Z) :
  Forall (fun i => 0 <= i < Z.of_nat (length a)) idx ->
  exists rows, fancy_index a idx = Ok rows /\ length rows = length idx.
Proof.
  induction 1 as [|i idx Hi _ IH]; simpl.
  - exists []. auto.
  - destruct (item_in_range a i Hi) as [x ->].
    destruct IH as [rows [-> Hlen]].
    exists (x :: rows). simpl. auto.
Qed.

Lemma length_fancy_index (a : list A) (idx : list Z) (rows : list A) :
  fancy_index a idx = Ok rows -> length rows = length idx.
Proof.
  revert rows. induction idx as [|i idx IH]; simpl; intros rows H.
  - inversion H. reflexivity.
  - destruct (item a i); [|discriminate].
    destruct (fancy_index a idx); [|discriminate].
    inversion H. simpl. f_equal. apply IH. reflexivity.
Qed.

End PyFacts.

Lemma in_arange (n i : Z) : In i (arange n) <-> 0 <= i < n.
Proof.
  unfold arange. rewrite in_map_iff. split.
  - intros [k [<- Hk]]. apply in_seq in Hk. lia.
  - intros H. exists (Z.to_nat i). split; [lia|]. apply in_seq. lia.
Qed.

Lemma length_arange (n : Z) : length (arange n) = Z.to_nat n.
Proof. unfold arange. rewrite length_map, length_seq. reflexivity. Qed.

Lemma NoDup_arange (n : Z) : NoDup (arange n).
Proof.
  unfold arange. apply NoDup_map_NoDup_ForallPairs.
  - intros x y _ _. lia.
  - apply seq_NoDup.
Qed.

Lemma order_in_range (order : list Z) (n : Z) :
  Permutation order (arange n) -> Forall (fun i => 0 <= i < n) order.
Proof.
  intros H. apply Forall_forall. intros i Hi.
  apply in_arange. apply (Permutation_in i H Hi).
Qed.

Lemma order_length (order : list Z) (n : Z) :
  0 <= n -> Permutation order (arange n) -> Z.of_nat (length order) = n.
Proof.
  intros Hn H. rewrite (Permutation_length H), length_arange. lia.
Qed.

Lemma rotation_permutation (n : Z) (g : nat) :
  Permutation (fst (Sample.rotation n g)) (arange n).
Proof.
  unfold Sample.rotation. simpl.
  rewrite Permutation_app_comm, firstn_skipn. reflexivity.
Qed.

(** ** Tactics for the case analysis of a call *)

Ltac case_gather :=
  match goal with
  | |- context [fancy_index ?a ?idx] => destruct (fancy_index a idx) eqn:?; simpl
  end.

Ltac index_error :=
  match goal with
  | H : fancy_index _ _ = Raise ?e |- _ =>
      apply fancy_index_raises in H; subst e
  end.

(** ** The batching state machine *)

Section BatchSampler.

Variables Image Label RNG : Type.
Variable permutation : Z -> RNG -> list Z * RNG.

Local Notation "'next'" := (Dataset.get_next_batch permutation).

Lemma gather_ok (d : Dataset.t Image Label) (lo hi : Z) :
  example_set_ok d ->
  Permutation (Dataset.cur_order d) (arange (Dataset.n d)) ->
  exists bx by_,
    fancy_index (Dataset.xs d) (slice (Dataset.cur_order d) lo hi) = Ok bx
    /\ fancy_index (Dataset.ys d) (slice (Dataset.cur_order d) lo hi) = Ok by_.
Proof.
  intros [Hn Hy] Hp.
  pose proof (order_in_range _ _ Hp) as Hr.
  destruct (fancy_index_in_range (Dataset.xs d)
              (slice (Dataset.cur_order d) lo hi)) as [bx [Hx _]].
  { apply Forall_slice. rewrite <- Hn. exact Hr. }
  destruct (fancy_index_in_range (Dataset.ys d)
              (slice (Dataset.cur_order d) lo hi)) as [by_ [Hy' _]].
  { apply Forall_slice. rewrite Hy, <- Hn. exact Hr. }
  eauto.
Qed.

(** C8.  In both modes and from every sampler state, [get_next_batch] raises
    the [ValueError] of an oversized batch exactly when
    [batch_size > count].  The test comes first: when it fires, that is the
    outcome whatever the mode, the cursor or the order, and the sampler and
    the generator are returned as they were. *)
Theorem invalid_argument_iff (d : Dataset.t Image Label) (batch_size : Z)
    (multiple_passes reshuffle_after_pass : bool) (g : RNG) :
  (fst (fst (next d batch_size multiple_passes reshuffle_after_pass g))
     = Raise (ValueError Dataset.too_large)
   <-> Dataset.n d < batch_size)
  /\ (Dataset.n d < batch_size ->
      next d batch_size multiple_passes reshuffle_after_pass g
        = (Raise (ValueError Dataset.too_large), d, g)).
Proof.
  unfold Dataset.get_next_batch.
  destruct (Z.ltb_spec (Dataset.n d) batch_size) as [Hlt|Hge].
  - split; [split|]; auto.
  - split; [split|]; [|lia|lia].
    destruct multiple_passes; simpl.
    + destruct (_ <? _).
      * destruct reshuffle_after_pass.
        -- destruct (permutation _ _) as [order g'].
           repeat case_gather;
             try index_error; discriminate.
        -- repeat case_gather;
             try index_error; discriminate.
      * repeat case_gather;
          try index_error; discriminate.
    + destruct (_ <=? _); simpl; [discriminate|].
      repeat case_gather;
        try index_error; discriminate.
Qed.

(** C7, amended.  In bounded mode with [batch_size <= count], the call raises
    the [ValueError] of a completed pass exactly when
    [min(batch_size, count - cursor) <= 0], that is, when the cursor has
    reached [count] or [batch_size <= 0]; on that failure the sampler (cursor
    and order included) and the generator are unchanged. *)
Theorem exhausted_iff (d : Dataset.t Image Label) (batch_size : Z)
    (reshuffle_after_pass : bool) (g : RNG) :
  batch_size <= Dataset.n d ->
  (fst (fst (next d batch_size false reshuffle_after_pass g))
     = Raise (ValueError Dataset.pass_complete)
   <-> (Dataset.n d <= Dataset.batch_start d \/ batch_size <= 0))
  /\ (Dataset.n d <= Dataset.batch_start d \/ batch_size <= 0 ->
      next d batch_size false reshuffle_after_pass g
        = (Raise (ValueError Dataset.pass_complete), d, g)).
Proof.
  intros Hle. unfold Dataset.get_next_batch.
  destruct (Z.ltb_spec (Dataset.n d) batch_size) as [Hlt|_]; [lia|]. simpl.
  destruct (Z.leb_spec
              (Z.min batch_size (Dataset.n d - Dataset.batch_start d)) 0)
    as [Hs|Hs].
  - split; [split|]; auto. intros _. lia.
  - split; [split|]; [|lia|lia].
    repeat case_gather;
      try index_error; discriminate.
Qed.

(** C6.  In unbounded mode every call that returns hands back a 3-tuple
    whose flag is [min(batch_size, count - cursor) < batch_size], computed
    from the cursor the call started with: it is true exactly when the rest
    of the pass cannot fill a batch of the requested size. *)
Theorem epoch_done_flag (d d' : Dataset.t Image Label) (batch_size : Z)
    (reshuffle_after_pass : bool) (g g' : RNG) (b : ret Image Label) :
  next d batch_size true reshuffle_after_pass g = (Ok b, d', g') ->
  exists batch_xs batch_ys,
    b = Tuple3 batch_xs batch_ys
          (Z.min batch_size (Dataset.n d - Dataset.batch_start d)
             <? batch_size).
Proof.
  unfold Dataset.get_next_batch.
  destruct (_ <? _); [discriminate|]. simpl.
  destruct (if _ <? _ then _ else _) as [self1 g1].
  destruct (fancy_index _ _) as [bx|]; [|discriminate].
  destruct (fancy_index _ _) as [by_|]; [|discriminate].
  intros H. inversion H. eauto.
Qed.

(** *** Successful calls on a well-formed sampler *)

Lemma gather_lengths (d : Dataset.t Image Label) (order : list Z) (lo hi : Z) :
  example_set_ok d ->
  Permutation order (arange (Dataset.n d)) ->
  0 <= lo <= hi -> hi <= Dataset.n d ->
  exists bx by_,
    fancy_index (Dataset.xs d) (slice order lo hi) = Ok bx
    /\ fancy_index (Dataset.ys d) (slice order lo hi) = Ok by_
    /\ Z.of_nat (length bx) = hi - lo
    /\ Z.of_nat (length by_) = hi - lo.
Proof.
  intros Hok Hp Hlo Hhi.
  destruct (gather_ok (Dataset.set_cur_order d order) lo hi Hok Hp)
    as [bx [by_ [Hx Hy]]].
  simpl in Hx, Hy. exists bx, by_.
  assert (Hlen : Z.of_nat (length (slice order lo hi)) = hi - lo).
  { apply length_slice; [assumption|].
    rewrite (order_length order (Dataset.n d)); [assumption|lia|assumption]. }
  rewrite (length_fancy_index _ _ _ Hx), (length_fancy_index _ _ _ Hy).
  auto.
Qed.

(** Bounded mode, examples left: the batch is [order[cursor : cursor+served]]
    and the cursor moves by [served]. *)
Lemma next_bounded (d : Dataset.t Image Label) (batch_size : Z)
    (reshuffle_after_pass : bool) (g : RNG) :
  example_set_ok d -> sampler_inv d ->
  1 <= batch_size <= Dataset.n d ->
  Dataset.batch_start d < Dataset.n d ->
  let served := Z.min batch_size (Dataset.n d - Dataset.batch_start d) in
  let window := slice (Dataset.cur_order d) (Dataset.batch_start d)
                  (Dataset.batch_start d + served) in
  exists bx by_,
    next d batch_size false reshuffle_after_pass g
      = (Ok (Tuple2 bx by_),
         Dataset.set_batch_start d (Dataset.batch_start d + served), g)
    /\ fancy_index (Dataset.xs d) window = Ok bx
    /\ fancy_index (Dataset.ys d) window = Ok by_
    /\ Z.of_nat (length window) = served.
Proof.
  intros Hok [Hp Hc] Hbs Hleft served window.
  destruct (gather_lengths d (Dataset.cur_order d) (Dataset.batch_start d)
              (Dataset.batch_start d + served) Hok Hp)
    as [bx [by_ [Hx [Hy _]]]]; [lia|lia|].
  exists bx, by_. unfold Dataset.get_next_batch.
  destruct (Z.ltb_spec (Dataset.n d) batch_size); [lia|]. simpl.
  fold served.
  destruct (Z.leb_spec served 0); [lia|].
  fold window in Hx, Hy |- *. rewrite Hx, Hy.
  repeat split; try reflexivity.
  unfold window. rewrite length_slice; [lia|lia|].
  rewrite (order_length _ (Dataset.n d)); [lia|lia|assumption].
Qed.

(** Unbounded mode, a full batch left in the pass. *)
Lemma next_no_wrap (d : Dataset.t Image Label) (batch_size : Z)
    (reshuffle_after_pass : bool) (g : RNG) :
  example_set_ok d -> sampler_inv d ->
  0 <= batch_size <= Dataset.n d - Dataset.batch_start d ->
  let window := slice (Dataset.cur_order d) (Dataset.batch_start d)
                  (Dataset.batch_start d + batch_size) in
  exists bx by_,
    next d batch_size true reshuffle_after_pass g
      = (Ok (Tuple3 bx by_ false),
         Dataset.set_batch_start d (Dataset.batch_start d + batch_size), g)
    /\ fancy_index (Dataset.xs d) window = Ok bx
    /\ fancy_index (Dataset.ys d) window = Ok by_
    /\ Z.of_nat (length bx) = batch_size
    /\ Z.of_nat (length by_) = batch_size.
Proof.
  intros Hok [Hp Hc] Hbs window.
  destruct (gather_lengths d (Dataset.cur_order d) (Dataset.batch_start d)
              (Dataset.batch_start d + batch_size) Hok Hp)
    as [bx [by_ [Hx [Hy [Lx Ly]]]]]; [lia|lia|].
  exists bx, by_. unfold Dataset.get_next_batch.
  destruct (Z.ltb_spec (Dataset.n d) batch_size); [lia|]. simpl.
  rewrite Z.min_l by lia. rewrite Z.ltb_irrefl.
  fold window in Hx, Hy |- *. rewrite Hx, Hy.
  repeat split; try reflexivity; lia.
Qed.

Hypothesis permutation_ok :
  forall k g, 0 <= k -> Permutation (fst (permutation k g)) (arange k).


(** Unbounded mode, fewer than [batch_size] examples left: the reset comes
    first, the batch is read from position 0 of the order in force after it,
    and the cursor ends on the number of examples that had been left. *)
Lemma next_wrap (d : Dataset.t Image Label) (batch_size : Z)
    (reshuffle_after_pass : bool) (g : RNG) :
  example_set_ok d -> sampler_inv d ->
  Dataset.n d - Dataset.batch_start d < batch_size ->
  batch_size <= Dataset.n d ->
  let order' := if reshuffle_after_pass
                then fst (permutation (Dataset.n d) g)
                else Dataset.cur_order d in
  let g' := if reshuffle_after_pass
            then snd (permutation (Dataset.n d) g) else g in
  exists bx by_,
    next d batch_size true reshuffle_after_pass g
      = (Ok (Tuple3 bx by_ true),
         Dataset.mk (Dataset.xs d) (Dataset.n d) (Dataset.ys d)
           (Dataset.n d - Dataset.batch_start d) order', g')
    /\ fancy_index (Dataset.xs d) (slice order' 0 batch_size) = Ok bx
    /\ fancy_index (Dataset.ys d) (slice order' 0 batch_size) = Ok by_
    /\ Z.of_nat (length bx) = batch_size
    /\ Z.of_nat (length by_) = batch_size
    /\ Permutation order' (arange (Dataset.n d)).
Proof.
  intros Hok [Hp Hc] Hw Hbs order' g'.
  assert (Hq : Permutation order' (arange (Dataset.n d))).
  { unfold order'. destruct reshuffle_after_pass.
    - apply permutation_ok. lia.
    - exact Hp. }
  destruct (gather_lengths d order' 0 batch_size Hok Hq)
    as [bx [by_ [Hx [Hy [Lx Ly]]]]]; [lia|lia|].
  exists bx, by_. unfold Dataset.get_next_batch.
  destruct (Z.ltb_spec (Dataset.n d) batch_size); [lia|]. simpl.
  rewrite Z.min_r by lia.
  destruct (Z.ltb_spec (Dataset.n d - Dataset.batch_start d) batch_size);
    [|lia].
  assert (Hreset :
            (if reshuffle_after_pass
             then let (order, g0) := permutation (Dataset.n d) g in
                  (Dataset.set_cur_order d order, g0)
             else (d, g))
            = (Dataset.set_cur_order d order', g')).
  { unfold order', g'. destruct reshuffle_after_pass.
    - destruct (permutation _ g); reflexivity.
    - destruct d; reflexivity. }
  rewrite Hreset. simpl. rewrite Hx, Hy.
  repeat split; try assumption; try lia.
Qed.

(** C10, amended.  The sampler built by [__init__] satisfies the invariant
    (the order is a permutation of [[0, count)] and [0 <= cursor <= count]).
    Every bounded call of [get_next_batch] preserves it, whatever the batch
    size, and so does every unbounded call with
    [cursor + batch_size >= 0], hence every unbounded call with
    [batch_size >= 0]; this holds whether the call returns or raises.  The
    bound cannot be dropped: on a well-formed sampler an unbounded call with
    [cursor + batch_size < 0] returns and leaves a negative cursor. *)
Theorem sampler_inv_preserved :
  (forall (xs0 : list Image) (ys0 : list Label) (g : RNG),
      sampler_inv (fst (Dataset.init permutation xs0 ys0 g)))
  /\ (forall (d : Dataset.t Image Label) (batch_size : Z)
             (multiple_passes reshuffle_after_pass : bool) (g : RNG),
        multiple_passes = false \/ 0 <= Dataset.batch_start d + batch_size ->
        sampler_inv d ->
        sampler_inv
          (snd (fst (next d batch_size multiple_passes reshuffle_after_pass g))))
  /\ (forall (d : Dataset.t Image Label) (batch_size : Z)
             (reshuffle_after_pass : bool) (g : RNG),
        example_set_ok d ->
        sampler_inv d ->
        Dataset.batch_start d + batch_size < 0 ->
        (exists b d' g',
            next d batch_size true reshuffle_after_pass g = (Ok b, d', g')
            /\ Dataset.batch_start d' = Dataset.batch_start d + batch_size)
        /\ ~ sampler_inv
               (snd (fst (next d batch_size true reshuffle_after_pass g)))).
Proof.
  split; [|split].
  - intros xs0 ys0 g. unfold Dataset.init.
    pose proof (permutation_ok (Z.of_nat (length xs0)) g) as Hp.
    destruct (permutation _ g) as [order g']. simpl in *.
    split; simpl; [apply Hp|]; lia.
  - intros d batch_size multiple_passes reshuffle_after_pass g Hbs [Hp Hc].
    unfold Dataset.get_next_batch.
    destruct (Z.ltb_spec (Dataset.n d) batch_size) as [Hlt|Hge];
      [split; assumption|].
    destruct multiple_passes; simpl.
    + destruct Hbs as [Hbs|Hbs]; [discriminate|].
      destruct (Z.ltb_spec
                  (Z.min batch_size (Dataset.n d - Dataset.batch_start d))
                  batch_size) as [Hw|Hw].
      * assert (Hfresh : exists order g',
                   (if reshuffle_after_pass
                    then let (order, g') := permutation (Dataset.n d) g in
                         (Dataset.set_cur_order d order, g')
                    else (d, g))
                   = (Dataset.set_cur_order d order, g')
                   /\ Permutation order (arange (Dataset.n d))).
        { destruct reshuffle_after_pass.
          - pose proof (permutation_ok (Dataset.n d) g) as Hq.
            destruct (permutation _ g) as [order g']. simpl in Hq.
            exists order, g'. split; [reflexivity|]. apply Hq. lia.
          - exists (Dataset.cur_order d), g. split; [|assumption].
            destruct d; reflexivity. }
        destruct Hfresh as [order [g' [-> Hq]]].
        repeat case_gather;
          (split; simpl; [assumption|lia]).
      * repeat case_gather;
          (split; simpl; [assumption|lia]).
    + destruct (_ <=? _) eqn:Hs; [split; assumption|].
      apply Z.leb_gt in Hs.
      repeat case_gather;
        (split; simpl; [assumption|lia]).
  - intros d batch_size reshuffle_after_pass g Hok [Hp Hc] Hneg.
    destruct (gather_ok d (Dataset.batch_start d)
                (Dataset.batch_start d + batch_size) Hok Hp)
      as [bx [by_ [Hx Hy]]].
    assert (Hcall : next d batch_size true reshuffle_after_pass g
                    = (Ok (Tuple3 bx by_ false),
                       Dataset.set_batch_start d
                         (Dataset.batch_start d + batch_size), g)).
    { unfold Dataset.get_next_batch.
      destruct (Z.ltb_spec (Dataset.n d) batch_size); [lia|]. simpl.
      rewrite Z.min_l by lia. rewrite Z.ltb_irrefl.
      rewrite Hx, Hy. reflexivity. }
    rewrite Hcall. simpl. split.
    + eexists. eexists. eexists. split; reflexivity.
    + intros [_ Hc']. simpl in Hc'. lia.
Qed.

(** C1, amended.  In unbounded mode, on a well-formed sampler, a call with
    [count - cursor < batch_size <= count] (a wrapping call) returns the
    flag [true] and the examples at [order'[0 : batch_size]], where [order']
    is the order in force after the reset: the permutation just drawn when
    [reshuffle_after_pass] holds, the old order otherwise.  The batch starts
    at position 0, and it holds exactly [batch_size] images and labels. *)
Theorem wrap_batch_from_reset_order (d : Dataset.t Image Label)
    (batch_size : Z) (reshuffle_after_pass : bool) (g : RNG) :
  example_set_ok d -> sampler_inv d ->
  Dataset.n d - Dataset.batch_start d < batch_size ->
  batch_size <= Dataset.n d ->
  exists batch_xs batch_ys d' g',
    next d batch_size true reshuffle_after_pass g
      = (Ok (Tuple3 batch_xs batch_ys true), d', g')
    /\ Dataset.cur_order d'
        = (if reshuffle_after_pass
           then fst (permutation (Dataset.n d) g)
           else Dataset.cur_order d)
    /\ fancy_index (Dataset.xs d) (slice (Dataset.cur_order d') 0 batch_size)
        = Ok batch_xs
    /\ fancy_index (Dataset.ys d) (slice (Dataset.cur_order d') 0 batch_size)
        = Ok batch_ys
    /\ Z.of_nat (length batch_xs) = batch_size
    /\ Z.of_nat (length batch_ys) = batch_size.
Proof.
  intros Hok Hinv Hw Hbs.
  destruct (next_wrap d batch_size reshuffle_after_pass g Hok Hinv Hw Hbs)
    as [bx [by_ [Hcall [Hx [Hy [Lx [Ly _]]]]]]].
  eexists bx, by_, _, _. split; [exact Hcall|]. simpl. auto.
Qed.

(** The cursor an unbounded call leaves, as the code computes it.  While a
    full batch is left it moves by [batch_size], the number of examples
    served.  On a wrap the reset puts it on 0 and line 143 then adds
    [actual_batch_size], still the number of examples that were left before
    the reset, although [batch_size] examples have been served: it ends on
    [count - cursor].  With ten examples, batch size 4 and reshuffling, two
    calls bring the cursor to 8, and the third returns the flag [true] and
    leaves the cursor on 2. *)
Lemma cursor_after_unbounded_call :
  (forall (d d' : Dataset.t Image Label) (batch_size : Z)
          (reshuffle_after_pass : bool) (g g' : RNG) (b : ret Image Label),
      next d batch_size true reshuffle_after_pass g = (Ok b, d', g') ->
      Dataset.batch_start d'
      = (if Dataset.n d - Dataset.batch_start d <? batch_size
         then Dataset.n d - Dataset.batch_start d
         else Dataset.batch_start d + batch_size))
  /\ (forall (xs0 : list Image) (ys0 : list Label) (g : RNG),
        length xs0 = 10%nat -> length ys0 = 10%nat ->
        let '(d0, g0) := Dataset.init permutation xs0 ys0 g in
        let '(r1, d1, g1) := next d0 4 true true g0 in
        let '(r2, d2, g2) := next d1 4 true true g1 in
        let '(r3, d3, g3) := next d2 4 true true g2 in
        Dataset.batch_start d2 = 8
        /\ (exists batch_xs batch_ys, r3 = Ok (Tuple3 batch_xs batch_ys true))
        /\ Dataset.batch_start d3 = 2
        /\ Dataset.cur_order d3 = fst (permutation 10 g2)).
Proof.
  split.
  - intros d d' batch_size reshuffle_after_pass g g' b.
    unfold Dataset.get_next_batch.
    destruct (Z.ltb_spec (Dataset.n d) batch_size); [discriminate|]. simpl.
    destruct (Z.ltb_spec
                (Z.min batch_size (Dataset.n d - Dataset.batch_start d))
                batch_size) as [Hw|Hw];
      destruct (Z.ltb_spec (Dataset.n d - Dataset.batch_start d) batch_size);
      try lia.
    + destruct (if reshuffle_after_pass then _ else _) as [self0 g0].
      repeat case_gather; try discriminate.
      intros Hcall. inversion Hcall. simpl. lia.
    + repeat case_gather; try discriminate.
      intros Hcall. inversion Hcall. simpl. lia.
  - intros xs0 ys0 g Hx Hy. unfold Dataset.init.
    pose proof (permutation_ok (Z.of_nat (length xs0)) g) as Hp.
    destruct (permutation (Z.of_nat (length xs0)) g) as [order g0].
    rewrite Hx in *. change (Z.of_nat 10) with 10 in *.
    simpl in Hp. specialize (Hp ltac:(lia)).
    set (d0 := Dataset.mk xs0 10 ys0 0 order).
    assert (Hok0 : example_set_ok d0) by (split; simpl; lia).
    assert (Hinv0 : sampler_inv d0) by (split; simpl; [exact Hp|lia]).
    destruct (next_no_wrap d0 4 true g0 Hok0 Hinv0)
      as [bx1 [by1 [-> _]]]; [simpl; lia|].
    set (d1 := Dataset.set_batch_start d0 _).
    assert (Hinv1 : sampler_inv d1) by (split; simpl; [exact Hp|lia]).
    destruct (next_no_wrap d1 4 true g0 Hok0 Hinv1)
      as [bx2 [by2 [-> _]]]; [simpl; lia|].
    set (d2 := Dataset.set_batch_start d1 _).
    assert (Hinv2 : sampler_inv d2) by (split; simpl; [exact Hp|lia]).
    destruct (next_wrap d2 4 true g0 Hok0 Hinv2)
      as [bx3 [by3 [-> _]]]; [simpl; lia|simpl; lia|].
    simpl. repeat split; eauto.
Qed.

(** One bounded pass from a cursor: the loop stops on the exception of an
    exhausted pass, and the windows it has read are the rest of the order
    cut into pieces of [batch_size], the last one holding what is left. *)
Lemma drain_from (fuel : nat) :
  forall (d : Dataset.t Image Label) (batch_size : Z) (g : RNG),
    example_set_ok d -> sampler_inv d ->
    1 <= batch_size <= Dataset.n d ->
    (Z.to_nat (Dataset.n d - Dataset.batch_start d) < fuel)%nat ->
    exists windows batches d',
      Dataset.drain permutation fuel d batch_size g
        = Some (batches, ValueError Dataset.pass_complete, d', g)
      /\ concat windows
          = skipn (Z.to_nat (Dataset.batch_start d)) (Dataset.cur_order d)
      /\ Forall2 (batch_of_window (Dataset.xs d) (Dataset.ys d))
           windows batches
      /\ (Dataset.n d <= Dataset.batch_start d -> windows = [])
      /\ (Dataset.batch_start d < Dataset.n d ->
          exists front last,
            windows = front ++ [last]
            /\ Forall (fun w => Z.of_nat (length w) = batch_size) front
            /\ Z.of_nat (length last)
                = (let left := Dataset.n d - Dataset.batch_start d in
                   if left mod batch_size =? 0 then batch_size
                   else left mod batch_size)).
Proof.
  induction fuel as [|fuel IH]; intros d batch_size g Hok Hinv Hbs Hfuel;
    [lia|].
  pose proof Hinv as [Hp Hc].
  assert (Hlen : Z.of_nat (length (Dataset.cur_order d)) = Dataset.n d)
    by (apply order_length; [lia|exact Hp]).
  destruct (Z_lt_le_dec (Dataset.batch_start d) (Dataset.n d)) as [Hleft|Hend].
  - destruct (next_bounded d batch_size true g Hok Hinv Hbs Hleft)
      as [bx [by_ [Hcall [Hx [Hy Hw]]]]].
    set (served := Z.min batch_size (Dataset.n d - Dataset.batch_start d))
      in *.
    set (window := slice _ _ _) in *.
    set (d1 := Dataset.set_batch_start d _) in *.
    assert (Hinv1 : sampler_inv d1) by (split; simpl; [exact Hp|lia]).
    destruct (IH d1 batch_size g Hok Hinv1 Hbs) as
      [windows [batches [d' [Hdrain [Hcat [Hall [Hnil Hsizes]]]]]]];
      [simpl; lia|].
    exists (window :: windows), (Tuple2 bx by_ :: batches), d'.
    simpl. rewrite Hcall, Hdrain.
    split; [reflexivity|]. split; [|split; [|split; [lia|]]].
    + simpl in Hcat. rewrite Hcat. symmetry.
      apply slice_app_next; lia.
    + constructor; [|exact Hall].
      exists bx, by_.
      rewrite (length_fancy_index _ _ _ Hx), (length_fancy_index _ _ _ Hy).
      auto.
    + intros _. simpl in Hnil, Hsizes.
      destruct (Z_lt_le_dec (Dataset.batch_start d + served) (Dataset.n d))
        as [Hmore|Hlast].
      * destruct (Hsizes Hmore) as [front [last [-> [Hfront Hlast]]]].
        exists (window :: front), last. split; [reflexivity|].
        split; [constructor; [lia|exact Hfront]|].
        rewrite Hlast. cbv zeta.
        replace (Dataset.n d - (Dataset.batch_start d + served))
          with (Dataset.n d - Dataset.batch_start d + (-1) * batch_size)
          by lia.
        rewrite Z.mod_add by lia. reflexivity.
      * rewrite (Hnil Hlast). exists [], window. split; [reflexivity|].
        split; [constructor|]. rewrite Hw. cbv zeta.
        destruct (Z.eq_dec (Dataset.n d - Dataset.batch_start d) batch_size)
          as [He|Hne].
        -- rewrite He, Z_mod_same_full. simpl. lia.
        -- rewrite Z.mod_small by lia.
           destruct (Z.eqb_spec (Dataset.n d - Dataset.batch_start d) 0); lia.
  - exists [], [], d. simpl.
    assert (Hcall : next d batch_size false true g
                    = (Raise (ValueError Dataset.pass_complete), d, g)).
    { unfold Dataset.get_next_batch.
      destruct (Z.ltb_spec (Dataset.n d) batch_size); [lia|]. simpl.
      destruct (Z.leb_spec
                  (Z.min batch_size (Dataset.n d - Dataset.batch_start d)) 0);
        [reflexivity|lia]. }
    rewrite Hcall. split; [reflexivity|]. split.
    + symmetry. apply skipn_all2. lia.
    + split; [constructor|]. split; [reflexivity|lia].
Qed.

(** C3, amended.  For a well-formed sampler at the start of a pass over
    [count >= 1] examples and [1 <= batch_size <= count], calling
    [get_next_batch] in bounded mode until it raises (any [fuel] above
    [count] is enough) ends on the [ValueError] of a completed pass; the
    batches returned before it hold the examples of consecutive windows of
    the order, the windows put end to end are the order itself, a
    permutation of [[0, count)] in which no index occurs twice, every window
    but the last has [batch_size] indices, and the last has
    [count mod batch_size] of them, or [batch_size] when that is 0. *)
Theorem bounded_pass_partitions (d : Dataset.t Image Label) (batch_size : Z)
    (g : RNG) (fuel : nat) :
  example_set_ok d -> sampler_inv d ->
  Dataset.batch_start d = 0 ->
  1 <= Dataset.n d ->
  1 <= batch_size <= Dataset.n d ->
  (Z.to_nat (Dataset.n d) < fuel)%nat ->
  exists windows batches d',
    Dataset.drain permutation fuel d batch_size g
      = Some (batches, ValueError Dataset.pass_complete, d', g)
    /\ Forall2 (batch_of_window (Dataset.xs d) (Dataset.ys d)) windows batches
    /\ concat windows = Dataset.cur_order d
    /\ Permutation (concat windows) (arange (Dataset.n d))
    /\ NoDup (concat windows)
    /\ exists front last,
        windows = front ++ [last]
        /\ Forall (fun w => Z.of_nat (length w) = batch_size) front
        /\ Z.of_nat (length last)
            = (if Dataset.n d mod batch_size =? 0 then batch_size
               else Dataset.n d mod batch_size).
Proof.
  intros Hok Hinv Hstart Hn Hbs Hfuel.
  destruct (drain_from fuel d batch_size g Hok Hinv Hbs) as
    [windows [batches [d' [Hdrain [Hcat [Hall [_ Hsizes]]]]]]];
    [rewrite Hstart; lia|].
  rewrite Hstart in Hcat, Hsizes. simpl in Hcat.
  rewrite Z.sub_0_r in Hsizes. cbv zeta in Hsizes.
  exists windows, batches, d'.
  split; [exact Hdrain|]. split; [exact Hall|]. split; [exact Hcat|].
  split; [rewrite Hcat; apply Hinv|].
  split; [|apply Hsizes; lia].
  rewrite Hcat. apply (Permutation_NoDup (l := arange (Dataset.n d))).
  - symmetry. apply Hinv.
  - apply NoDup_arange.
Qed.

End BatchSampler.

(** ** The augmenting wrapper *)

Section AugmentingSampler.

Variables Image Label RNG Sess : Type.
Variable permutation : Z -> RNG -> list Z * RNG.

Local Notation "'next'" := (Dataset.get_next_batch permutation).
Local Notation "'augmented_next'" :=
  (AugmentedDataset.get_next_batch permutation).

(** *** [tf.map_fn] row by row *)

Lemma map_fn_snd (fn : Image -> Sess -> Image * Sess) (l : list Image)
    (s : Sess) :
  snd (AugmentedDataset.map_fn fn l s) = AugmentedDataset.sess_after fn l s.
Proof.
  unfold AugmentedDataset.sess_after. revert s.
  induction l as [|x l IH]; intros s; simpl; [reflexivity|].
  destruct (fn x s) as [y s1] eqn:E. simpl.
  specialize (IH s1).
  destruct (AugmentedDataset.map_fn fn l s1) as [out s2]. simpl in *.
  exact IH.
Qed.

Lemma map_fn_length (fn : Image -> Sess -> Image * Sess) (l : list Image)
    (s : Sess) :
  length (fst (AugmentedDataset.map_fn fn l s)) = length l.
Proof.
  revert s. induction l as [|x l IH]; intros s; simpl; [reflexivity|].
  destruct (fn x s) as [y s1]. specialize (IH s1).
  destruct (AugmentedDataset.map_fn fn l s1) as [out s2]. simpl in *.
  f_equal. exact IH.
Qed.

Lemma map_fn_nth (fn : Image -> Sess -> Image * Sess) (l : list Image) :
  forall (s : Sess) (i : nat) (x : Image),
    nth_error l i = Some x ->
    nth_error (fst (AugmentedDataset.map_fn fn l s)) i
    = Some (fst (fn x (AugmentedDataset.sess_after fn (firstn i l) s))).
Proof.
  unfold AugmentedDataset.sess_after.
  induction l as [|x0 l IH]; intros s i x Hi.
  - destruct i; discriminate.
  - simpl. destruct (fn x0 s) as [y s1] eqn:E.
    specialize (IH s1).
    destruct (AugmentedDataset.map_fn fn l s1) as [out s2]. simpl in IH.
    destruct i as [|i]; simpl in *.
    + inversion Hi. subst x0. rewrite E. reflexivity.
    + rewrite E. simpl. apply IH. exact Hi.
Qed.

Lemma map_fn_pure (T : Image -> Image) (l : list Image) (s : Sess) :
  AugmentedDataset.map_fn (fun x s0 => (T x, s0)) l s = (map T l, s).
Proof.
  induction l as [|x l IH]; simpl; [reflexivity|]. rewrite IH. reflexivity.
Qed.

(** *** Index arrays commute with a per-image function *)

Lemma item_map (T : Image -> Image) (a : list Image) (i : Z) :
  item (map T a) i
  = match item a i with Ok x => Ok (T x) | Raise e => Raise e end.
Proof.
  unfold item. rewrite length_map.
  destruct (_ || _); [reflexivity|].
  rewrite nth_error_map. destruct (nth_error a _); reflexivity.
Qed.

Lemma fancy_index_map (T : Image -> Image) (a : list Image) (idx : list Z) :
  fancy_index (map T a) idx
  = match fancy_index a idx with
    | Ok rows => Ok (map T rows)
    | Raise e => Raise e
    end.
Proof.
  induction idx as [|i idx IH]; simpl; [reflexivity|].
  rewrite item_map. destruct (item a i); [|reflexivity].
  rewrite IH. destruct (fancy_index a idx); reflexivity.
Qed.

Lemma next_map_images (T : Image -> Image) (d : Dataset.t Image Label)
    (batch_size : Z) (multiple_passes reshuffle_after_pass : bool) (g : RNG) :
  next (map_images T d) batch_size multiple_passes reshuffle_after_pass g
  = let '(r, d', g') :=
      next d batch_size multiple_passes reshuffle_after_pass g in
    (map_result T r, map_images T d', g').
Proof.
  unfold Dataset.get_next_batch. simpl.
  destruct (_ <? _); [reflexivity|].
  destruct multiple_passes; simpl.
  - destruct (_ <? _);
      [destruct reshuffle_after_pass;
       [destruct (permutation _ g) as [order g']|]|];
      simpl; rewrite fancy_index_map; repeat case_gather; reflexivity.
  - destruct (_ <=? _); [reflexivity|].
    simpl. rewrite fancy_index_map. repeat case_gather; reflexivity.
Qed.

Lemma bounded_returns_pair (d d' : Dataset.t Image Label) (batch_size : Z)
    (reshuffle_after_pass : bool) (g g' : RNG) (b : ret Image Label) :
  next d batch_size false reshuffle_after_pass g = (Ok b, d', g') ->
  ret2 b = Raise IndexError.
Proof.
  unfold Dataset.get_next_batch.
  destruct (_ <? _); [discriminate|]. simpl.
  destruct (_ <=? _); [discriminate|].
  repeat case_gather; try discriminate.
  intros Hcall. inversion Hcall. reflexivity.
Qed.

Lemma next_keeps_examples (d : Dataset.t Image Label) (batch_size : Z)
    (multiple_passes reshuffle_after_pass : bool) (g : RNG) :
  let d' := snd (fst (next d batch_size multiple_passes
                        reshuffle_after_pass g)) in
  Dataset.xs d' = Dataset.xs d
  /\ Dataset.n d' = Dataset.n d
  /\ Dataset.ys d' = Dataset.ys d.
Proof.
  unfold Dataset.get_next_batch.
  destruct (_ <? _); [auto|].
  destruct multiple_passes; simpl.
  - destruct (_ <? _);
      [destruct reshuffle_after_pass;
       [destruct (permutation _ g) as [order g']|]|];
      simpl; repeat case_gather; auto.
  - destruct (_ <=? _); [auto|].
    simpl. repeat case_gather; auto.
Qed.

(** C5, amended.  A call of [AugmentedDataset.get_next_batch] with
    [multiple_passes = False] never returns a batch: it raises the
    exception of the inner call when that one raises (the [ValueError] of an
    oversized batch or of a completed pass among them), and [IndexError]
    whenever the inner call returns, because element 2 of a 2-tuple is read.
    The inner sampler keeps the state the inner call left, and the graph is
    not run. *)
Theorem bounded_call_through_wrapper_raises
    (a : AugmentedDataset.t Image Label Sess) (batch_size : Z)
    (reshuffle_after_pass : bool) (g : RNG) (s : Sess) :
  let '(res, a', g', s') :=
    augmented_next a batch_size false reshuffle_after_pass g s in
  let '(raw_res, raw', g_raw) :=
    next (AugmentedDataset.raw_datasubset a) batch_size false
      reshuffle_after_pass g in
  (exists e, res = Raise e)
  /\ (forall e, raw_res = Raise e -> res = Raise e)
  /\ (forall b, raw_res = Ok b -> res = Raise IndexError)
  /\ AugmentedDataset.raw_datasubset a' = raw'
  /\ g' = g_raw
  /\ s' = s.
Proof.
  unfold AugmentedDataset.get_next_batch.
  destruct (next (AugmentedDataset.raw_datasubset a) batch_size false
              reshuffle_after_pass g) as [[raw_res raw'] g_raw] eqn:Hcall.
  destruct raw_res as [b|e].
  - rewrite (bounded_returns_pair _ _ _ _ _ _ _ Hcall).
    repeat split; eauto; intros; congruence.
  - repeat split; eauto; intros; congruence.
Qed.

(** C9.  Built with [to_cache] over a set whose count is the number of its
    images, and over the graph [map_fn fn] of a per-image transform [fn],
    the wrapper holds the count and the labels of the input and as many
    images; its [i]-th image is [fn] run on the [i]-th input image (in the
    session as the earlier rows left it, so for a deterministic [fn] simply
    [fn] of that image); and the session returned by the constructor has
    seen every one of these runs. *)
Theorem cache_transforms_every_image (raw : Dataset.t Image Label)
    (fn : Image -> Sess -> Image * Sess) (s : Sess) :
  Dataset.n raw = Z.of_nat (length (Dataset.xs raw)) ->
  let '(a, s') :=
    AugmentedDataset.init raw (AugmentedDataset.map_fn fn) true s in
  exists cached,
    AugmentedDataset.xs a = Some cached
    /\ AugmentedDataset.n a = Some (Dataset.n raw)
    /\ AugmentedDataset.ys a = Some (Dataset.ys raw)
    /\ length cached = length (Dataset.xs raw)
    /\ (forall (i : nat) (x : Image),
          nth_error (Dataset.xs raw) i = Some x ->
          nth_error cached i
          = Some (fst (fn x (AugmentedDataset.sess_after fn
                               (firstn i (Dataset.xs raw)) s))))
    /\ s' = AugmentedDataset.sess_after fn (Dataset.xs raw) s.
Proof.
  intros Hn. unfold AugmentedDataset.init.
  pose proof (map_fn_length fn (Dataset.xs raw) s) as Hlen.
  pose proof (map_fn_snd fn (Dataset.xs raw) s) as Hsess.
  pose proof (map_fn_nth fn (Dataset.xs raw) s) as Hnth.
  destruct (AugmentedDataset.map_fn fn (Dataset.xs raw) s) as [cached s'].
  simpl in *. exists cached.
  rewrite Hlen, Hn. repeat split; auto.
Qed.

(** C4, amended.  [get_next_batch] of a wrapper does not read the cached
    fields and leaves them as they are.  At every call, on every wrapper,
    cached or not and in whatever session, it draws through the raw sampler,
    and on a 3-tuple runs the graph on the drawn raw images in the session
    of that call.  When the graph is [map_fn] of a deterministic per-image
    function [T], a wrapper built with caching over a set whose count is the
    number of its images corresponds to the plain sampler over the
    precomputed set; every unbounded call on a corresponding wrapper yields
    what the same call on that plain sampler yields, and leaves the two in
    correspondence, so that they stay in step call after call. *)
Theorem cached_wrapper_sampling :
  (forall (a : AugmentedDataset.t Image Label Sess) (batch_size : Z)
          (multiple_passes reshuffle_after_pass : bool) (g : RNG) (s : Sess),
      let '(res, a', g', s') :=
        augmented_next a batch_size multiple_passes reshuffle_after_pass g s in
      let '(raw_res, raw', g_raw) :=
        next (AugmentedDataset.raw_datasubset a) batch_size multiple_passes
          reshuffle_after_pass g in
      res = match AugmentedDataset.as_triple raw_res with
            | Raise e => Raise e
            | Ok (bx, by_, e) =>
                Ok (fst (AugmentedDataset.augmented a bx s), by_, e)
            end
      /\ AugmentedDataset.raw_datasubset a' = raw'
      /\ AugmentedDataset.augmented a' = AugmentedDataset.augmented a
      /\ AugmentedDataset.xs a' = AugmentedDataset.xs a
      /\ AugmentedDataset.n a' = AugmentedDataset.n a
      /\ AugmentedDataset.ys a' = AugmentedDataset.ys a
      /\ g' = g_raw)
  /\ (forall (raw : Dataset.t Image Label) (T : Image -> Image) (s0 : Sess),
        Dataset.n raw = Z.of_nat (length (Dataset.xs raw)) ->
        let '(a, s) :=
          AugmentedDataset.init raw
            (AugmentedDataset.map_fn (fun x (s1 : Sess) => (T x, s1))) true s0
        in
        AugmentedDataset.raw_datasubset a = raw
        /\ AugmentedDataset.augmented a
           = AugmentedDataset.map_fn (fun x (s1 : Sess) => (T x, s1))
        /\ AugmentedDataset.precomputed_sampler a = Some (map_images T raw)
        /\ s = s0)
  /\ (forall (a : AugmentedDataset.t Image Label Sess) (T : Image -> Image)
             (batch_size : Z) (reshuffle_after_pass : bool) (g : RNG)
             (s : Sess),
        AugmentedDataset.augmented a
        = AugmentedDataset.map_fn (fun x (s1 : Sess) => (T x, s1)) ->
        AugmentedDataset.precomputed_sampler a
        = Some (map_images T (AugmentedDataset.raw_datasubset a)) ->
        let '(res, a', g', s') :=
          augmented_next a batch_size true reshuffle_after_pass g s in
        let '(plain_res, p', g_plain) :=
          next (map_images T (AugmentedDataset.raw_datasubset a)) batch_size
            true reshuffle_after_pass g in
        res = AugmentedDataset.as_triple plain_res
        /\ g' = g_plain
        /\ s' = s
        /\ AugmentedDataset.augmented a' = AugmentedDataset.augmented a
        /\ AugmentedDataset.precomputed_sampler a' = Some p'
        /\ p' = map_images T (AugmentedDataset.raw_datasubset a')).
Proof.
  split; [|split].
  - intros a batch_size multiple_passes reshuffle_after_pass g s.
    unfold AugmentedDataset.get_next_batch.
    destruct (next (AugmentedDataset.raw_datasubset a) batch_size
                multiple_passes reshuffle_after_pass g)
      as [[raw_res raw'] g_raw].
    destruct raw_res as [b|e]; [destruct b as [bx by_|bx by_ e]|]; simpl;
      try (destruct (AugmentedDataset.augmented a bx s) as [images s']);
      simpl; repeat split; reflexivity.
  - intros raw T s0 Hn.
    unfold AugmentedDataset.init. rewrite map_fn_pure.
    unfold AugmentedDataset.precomputed_sampler, map_images. simpl.
    rewrite length_map, <- Hn. repeat split; reflexivity.
  - intros a T batch_size reshuffle_after_pass g s Haug Hpre.
    unfold AugmentedDataset.get_next_batch.
    rewrite next_map_images.
    pose proof (next_keeps_examples (AugmentedDataset.raw_datasubset a)
                  batch_size true reshuffle_after_pass g) as Hkeep.
    destruct (next (AugmentedDataset.raw_datasubset a) batch_size true
                reshuffle_after_pass g) as [[raw_res raw'] g_raw].
    simpl in Hkeep. destruct Hkeep as [Kx [Kn Ky]].
    assert (Hpre' : AugmentedDataset.precomputed_sampler
                      (AugmentedDataset.set_raw_datasubset a raw')
                    = Some (map_images T raw')).
    { unfold AugmentedDataset.precomputed_sampler, map_images in Hpre |- *.
      simpl.
      destruct (AugmentedDataset.xs a) as [x0|]; [|discriminate].
      destruct (AugmentedDataset.n a) as [n0|]; [|discriminate].
      destruct (AugmentedDataset.ys a) as [y0|]; [|discriminate].
      inversion Hpre. rewrite Kx, Kn, Ky. reflexivity. }
    destruct raw_res as [b|e]; [destruct b as [bx by_|bx by_ e]|]; simpl.
    + repeat split; first [reflexivity|exact Hpre'].
    + rewrite Haug, map_fn_pure. simpl.
      repeat split; first [reflexivity|exact Haug|exact Hpre'].
    + repeat split; first [reflexivity|exact Hpre'].
Qed.

End AugmentingSampler.

(** ** Runs on concrete collaborators *)

Lemma rotation_ok :
  forall k g, 0 <= k -> Permutation (fst (Sample.rotation k g)) (arange k).
Proof. intros k g _. apply rotation_permutation. Qed.

(** The evaluation wrapper [AugmentedCIFAR100Data] builds is the caching
    one. *)
Lemma eval_data_is_cached :
  let '(data, s) :=
    AugmentedCIFAR100Data.init Sample.coin_flip Sample.loaded [true; false] in
  (AugmentedCIFAR100Data.eval_data data, s) = Sample.cached_wrapper
  /\ AugmentedDataset.xs (AugmentedCIFAR100Data.train_data data) = None.
Proof. split; reflexivity. Qed.

(** *** Inputs on which the specification's sentences fail *)

(** C1.  Three examples in the order [0; 1; 2], cursor 2, batch size 2: one
    example is left, so the call wraps.  The batch returned is read from
    positions 0 and 1 of the order drawn by the reshuffle, [1; 2; 0], while the
    window [order[2 : 4]] of the order in force before the reset holds the
    single index 2. *)
Lemma wrap_reads_pre_reset_order_counterexample :
  Dataset.get_next_batch Sample.rotation Sample.three_at_two 2 true true 1%nat
  = (Ok (Tuple3 [20; 30] [2; 3] true),
     Dataset.mk [10; 20; 30] 3 [1; 2; 3] 1 [1; 2; 0], 2%nat)
  /\ fancy_index (Dataset.xs Sample.three_at_two)
       (slice (Dataset.cur_order Sample.three_at_two)
          (Dataset.batch_start Sample.three_at_two)
          (Dataset.batch_start Sample.three_at_two + 2))
     = Ok [30].
Proof. split; reflexivity. Qed.

(** C2.  The code at the failing input.  Ten examples, batch size 4,
    reshuffling: the third call starts with the cursor on 8, completes the
    epoch, and returns the four examples at positions 0 to 3 of the order
    just drawn; it leaves the cursor on 2, not on 0, because line 143 adds
    the two examples that were left before the reset.  The fourth call then
    starts at position 2 and returns two of those four examples again. *)
Lemma third_call_cursor_code_bug :
  let '(d0, g0) :=
    Dataset.init Sample.rotation Sample.ten_xs Sample.ten_ys 0%nat in
  let '(r1, d1, g1) := Dataset.get_next_batch Sample.rotation d0 4 true true g0 in
  let '(r2, d2, g2) := Dataset.get_next_batch Sample.rotation d1 4 true true g1 in
  let '(r3, d3, g3) := Dataset.get_next_batch Sample.rotation d2 4 true true g2 in
  let '(r4, d4, g4) := Dataset.get_next_batch Sample.rotation d3 4 true true g3 in
  Dataset.batch_start d2 = 8
  /\ r3 = Ok (Tuple3 [10; 20; 30; 40] [1; 2; 3; 4] true)
  /\ Dataset.cur_order d3 = [1; 2; 3; 4; 5; 6; 7; 8; 9; 0]
  /\ Dataset.batch_start d3 = 2
  /\ Dataset.batch_start d3 <> 0
  /\ r4 = Ok (Tuple3 [30; 40; 50; 60] [3; 4; 5; 6] false).
Proof. vm_compute. repeat split; discriminate. Qed.

(** C3.  Three examples and batch size 0, which is at most 3: the first
    bounded call already raises, so the pass returns no batch and covers no
    index. *)
Lemma zero_batch_pass_counterexample :
  Dataset.drain Sample.rotation 4 Sample.three_fresh 0 0%nat
  = Some ([], ValueError Dataset.pass_complete, Sample.three_fresh, 0%nat)
  /\ 1 <= Dataset.n Sample.three_fresh
  /\ 0 <= Dataset.n Sample.three_fresh.
Proof. repeat split; try reflexivity; discriminate. Qed.

(** C4.  The caching wrapper of one image [1; 2] holds the flipped image
    [2; 1] computed at construction, yet the batch it returns is the raw
    image run through the graph again (this time the coin says no flip);
    plain sampling over the precomputed set returns [2; 1]. *)
Lemma cached_wrapper_counterexample :
  let '(a, s) := Sample.cached_wrapper in
  AugmentedDataset.xs a = Some [[2; 1]]
  /\ fst (fst (fst (AugmentedDataset.get_next_batch Sample.rotation a 1 true
                      true 0%nat s)))
     = Ok ([[1; 2]], [7], false)
  /\ exists p,
      AugmentedDataset.precomputed_sampler a = Some p
      /\ AugmentedDataset.as_triple
           (fst (fst (Dataset.get_next_batch Sample.rotation p 1 true true
                        0%nat)))
         = Ok ([[2; 1]], [7], false).
Proof.
  vm_compute. split; [reflexivity|]. split; [reflexivity|].
  eexists. split; reflexivity.
Qed.

(** C5.  A bounded call through the wrapper with a batch size above the
    count raises the inner [ValueError], not an [IndexError]. *)
Lemma wrapper_value_error_counterexample :
  let '(a, s) := Sample.cached_wrapper in
  fst (fst (fst (AugmentedDataset.get_next_batch Sample.rotation a 2 false
                   true 0%nat s)))
  = Raise (ValueError Dataset.too_large)
  /\ Raise (ValueError Dataset.too_large)
     <> (Raise IndexError : result (list (list Z) * list Z * bool)).
Proof. vm_compute. split; [reflexivity|discriminate]. Qed.

(** C7.  Batch size 0 on a sampler that has consumed nothing: the call
    raises the exception of an exhausted pass although the cursor, 0, has not
    reached the count, 3. *)
Lemma exhausted_at_zero_batch_counterexample :
  Dataset.get_next_batch Sample.rotation Sample.three_fresh 0 false true 0%nat
  = (Raise (ValueError Dataset.pass_complete), Sample.three_fresh, 0%nat)
  /\ 0 <= Dataset.n Sample.three_fresh
  /\ Dataset.batch_start Sample.three_fresh < Dataset.n Sample.three_fresh.
Proof. repeat split; try reflexivity; discriminate. Qed.

(** C10.  An unbounded call with batch size -1 on a well-formed sampler
    returns [order[0 : -1]] and leaves the cursor on -1. *)
Lemma negative_batch_breaks_inv_counterexample :
  sampler_inv Sample.three_fresh
  /\ Dataset.get_next_batch Sample.rotation Sample.three_fresh (-1) true true
       0%nat
     = (Ok (Tuple3 [10; 20] [1; 2] false),
        Dataset.mk [10; 20; 30] 3 [1; 2; 3] (-1) [0; 1; 2], 0%nat)
  /\ ~ sampler_inv
         (snd (fst (Dataset.get_next_batch Sample.rotation Sample.three_fresh
                      (-1) true true 0%nat))).
Proof.
  split; [|split].
  - split; [apply Permutation_refl|simpl; lia].
  - reflexivity.
  - intros [_ Hc]. simpl in Hc. lia.
Qed.

(** *** The theorems at concrete inputs *)

Lemma wrap_batch_from_reset_order_witness :
  exists batch_xs batch_ys d' g',
    Dataset.get_next_batch Sample.rotation Sample.three_at_two 2 true true
      1%nat
      = (Ok (Tuple3 batch_xs batch_ys true), d', g')
    /\ Dataset.cur_order d'
        = fst (Sample.rotation (Dataset.n Sample.three_at_two) 1%nat)
    /\ fancy_index (Dataset.xs Sample.three_at_two)
         (slice (Dataset.cur_order d') 0 2) = Ok batch_xs
    /\ fancy_index (Dataset.ys Sample.three_at_two)
         (slice (Dataset.cur_order d') 0 2) = Ok batch_ys
    /\ Z.of_nat (length batch_xs) = 2
    /\ Z.of_nat (length batch_ys) = 2.
Proof.
  apply (wrap_batch_from_reset_order Z Z nat Sample.rotation rotation_ok
           Sample.three_at_two 2 true 1%nat).
  - split; reflexivity.
  - split; [apply Permutation_refl|simpl; lia].
  - simpl. lia.
  - simpl. lia.
Defined.

Lemma bounded_pass_partitions_witness :
  exists windows batches d',
    Dataset.drain Sample.rotation 4 Sample.three_fresh 2 0%nat
      = Some (batches, ValueError Dataset.pass_complete, d', 0%nat)
    /\ Forall2 (batch_of_window (Dataset.xs Sample.three_fresh)
                 (Dataset.ys Sample.three_fresh)) windows batches
    /\ concat windows = Dataset.cur_order Sample.three_fresh
    /\ Permutation (concat windows) (arange (Dataset.n Sample.three_fresh))
    /\ NoDup (concat windows)
    /\ exists front last,
        windows = front ++ [last]
        /\ Forall (fun w => Z.of_nat (length w) = 2) front
        /\ Z.of_nat (length last)
            = (if Dataset.n Sample.three_fresh mod 2 =? 0 then 2
               else Dataset.n Sample.three_fresh mod 2).
Proof.
  apply (bounded_pass_partitions Z Z nat Sample.rotation Sample.three_fresh 2
           0%nat 4).
  - split; reflexivity.
  - split; [apply Permutation_refl|simpl; lia].
  - reflexivity.
  - simpl. lia.
  - simpl. lia.
  - simpl. lia.
Defined.

Lemma epoch_done_flag_witness :
  exists batch_xs batch_ys,
    Tuple3 [20; 30] [2; 3] true
    = Tuple3 batch_xs batch_ys
        (Z.min 2 (Dataset.n Sample.three_at_two
                  - Dataset.batch_start Sample.three_at_two) <? 2).
Proof.
  apply (epoch_done_flag Z Z nat Sample.rotation Sample.three_at_two
           (Dataset.mk [10; 20; 30] 3 [1; 2; 3] 1 [1; 2; 0]) 2 true
           1%nat 2%nat).
  reflexivity.
Defined.

Lemma exhausted_iff_witness :
  (fst (fst (Dataset.get_next_batch Sample.rotation Sample.three_fresh 2 false
               true 0%nat))
     = Raise (ValueError Dataset.pass_complete)
   <-> (Dataset.n Sample.three_fresh <= Dataset.batch_start Sample.three_fresh
        \/ 2 <= 0))
  /\ (Dataset.n Sample.three_fresh <= Dataset.batch_start Sample.three_fresh
      \/ 2 <= 0 ->
      Dataset.get_next_batch Sample.rotation Sample.three_fresh 2 false true
        0%nat
      = (Raise (ValueError Dataset.pass_complete), Sample.three_fresh, 0%nat)).
Proof.
  apply (exhausted_iff Z Z nat Sample.rotation Sample.three_fresh 2 true
           0%nat).
  simpl. lia.
Defined.

Lemma cache_transforms_every_image_witness :
  let '(a, s') :=
    AugmentedDataset.init Sample.one_image
      (AugmentedDataset.map_fn Sample.coin_flip) true [true; false] in
  exists cached,
    AugmentedDataset.xs a = Some cached
    /\ AugmentedDataset.n a = Some (Dataset.n Sample.one_image)
    /\ AugmentedDataset.ys a = Some (Dataset.ys Sample.one_image)
    /\ length cached = length (Dataset.xs Sample.one_image)
    /\ (forall (i : nat) (x : list Z),
          nth_error (Dataset.xs Sample.one_image) i = Some x ->
          nth_error cached i
          = Some (fst (Sample.coin_flip x
                         (AugmentedDataset.sess_after Sample.coin_flip
                            (firstn i (Dataset.xs Sample.one_image))
                            [true; false]))))
    /\ s' = AugmentedDataset.sess_after Sample.coin_flip
              (Dataset.xs Sample.one_image) [true; false].
Proof.
  apply (cache_transforms_every_image (list Z) Z (list bool) Sample.one_image
           Sample.coin_flip [true; false]).
  reflexivity.
Defined.

Lemma sampler_inv_preserved_witness :
  sampler_inv
    (fst (Dataset.init Sample.rotation Sample.ten_xs Sample.ten_ys 0%nat))
  /\ sampler_inv
       (snd (fst (Dataset.get_next_batch Sample.rotation Sample.three_at_two 2
                    true true 1%nat)))
  /\ sampler_inv
       (snd (fst (Dataset.get_next_batch Sample.rotation Sample.three_at_two
                    (-1) false true 1%nat)))
  /\ ~ sampler_inv
         (snd (fst (Dataset.get_next_batch Sample.rotation Sample.three_fresh
                      (-1) true true 0%nat))).
Proof.
  split; [|split; [|split]].
  - apply (proj1 (sampler_inv_preserved Z Z nat Sample.rotation rotation_ok)).
  - apply (proj1 (proj2 (sampler_inv_preserved Z Z nat Sample.rotation
                           rotation_ok))).
    + right. simpl. lia.
    + split; [apply Permutation_refl|simpl; lia].
  - apply (proj1 (proj2 (sampler_inv_preserved Z Z nat Sample.rotation
                           rotation_ok))).
    + left. reflexivity.
    + split; [apply Permutation_refl|simpl; lia].
  - apply (proj2 (proj2 (sampler_inv_preserved Z Z nat Sample.rotation
                           rotation_ok))).
    + split; reflexivity.
    + split; [apply Permutation_refl|simpl; lia].
    + simpl. lia.
Defined.

(** ** Further properties of the batching state machine *)

Lemma slice_split {A : Type} (a : list A) (lo mid hi : Z) :
  0 <= lo <= mid -> mid <= hi -> hi <= Z.of_nat (length a) ->
  slice a lo hi = slice a lo mid ++ slice a mid hi.
Proof.
  intros Hlo Hmid Hhi.
  pose proof (length_slice a lo mid Hlo ltac:(lia)) as Hlen.
  rewrite (slice_in_range a lo hi) by lia.
  rewrite (slice_app_next a lo mid) by lia.
  rewrite firstn_app, firstn_all2 by lia. f_equal.
  rewrite (slice_in_range a mid hi) by lia. f_equal. lia.
Qed.

Section BatchSamplerMore.

Variables Image Label RNG : Type.
Variable permutation : Z -> RNG -> list Z * RNG.

Local Notation "'next'" := (Dataset.get_next_batch permutation).

(** X1.  What a call can touch.  No call, returning or raising, in either
    mode, changes the images, the labels or the count.  The order and the
    generator change at most in an unbounded call with
    [reshuffle_after_pass] that passes the size test and finds fewer than
    [batch_size] examples left: in bounded mode, without reshuffling, on an
    oversized batch, or while a full batch is left, both stay as they
    were. *)
Theorem call_frame (d : Dataset.t Image Label) (batch_size : Z)
    (multiple_passes reshuffle_after_pass : bool) (g : RNG) :
  let '(res, d', g') :=
    next d batch_size multiple_passes reshuffle_after_pass g in
  Dataset.xs d' = Dataset.xs d
  /\ Dataset.n d' = Dataset.n d
  /\ Dataset.ys d' = Dataset.ys d
  /\ (multiple_passes = false \/ reshuffle_after_pass = false
      \/ Dataset.n d < batch_size
      \/ batch_size <= Dataset.n d - Dataset.batch_start d ->
      Dataset.cur_order d' = Dataset.cur_order d /\ g' = g).
Proof.
  unfold Dataset.get_next_batch.
  destruct (Z.ltb_spec (Dataset.n d) batch_size) as [Hbig|Hfit];
    [repeat split; reflexivity|].
  destruct multiple_passes; simpl.
  - destruct (Z.ltb_spec
                (Z.min batch_size (Dataset.n d - Dataset.batch_start d))
                batch_size) as [Hw|Hw].
    + destruct reshuffle_after_pass.
      * destruct (permutation (Dataset.n d) g) as [order g0]. simpl.
        repeat case_gather; (split; [|split; [|split]]); try reflexivity;
          intros Hc; exfalso; destruct Hc as [Hc|[Hc|[Hc|Hc]]];
          try discriminate; lia.
      * simpl. repeat case_gather; repeat split; reflexivity.
    + repeat case_gather; repeat split; reflexivity.
  - destruct (_ <=? _); [repeat split; reflexivity|].
    repeat case_gather; repeat split; reflexivity.
Qed.

(** X2.  A bounded call on a well-formed sampler that has examples left
    returns a 2-tuple holding the examples at [order[cursor : cursor+served]]
    with [served = min(batch_size, count - cursor)]: [served] images and
    [served] labels, fewer than [batch_size] on the last batch of a pass.
    The cursor advances by [served]; the order and the generator stay. *)
Theorem bounded_batch_is_window (d : Dataset.t Image Label) (batch_size : Z)
    (reshuffle_after_pass : bool) (g : RNG) :
  example_set_ok d -> sampler_inv d ->
  1 <= batch_size <= Dataset.n d ->
  Dataset.batch_start d < Dataset.n d ->
  let served := Z.min batch_size (Dataset.n d - Dataset.batch_start d) in
  exists batch_xs batch_ys,
    next d batch_size false reshuffle_after_pass g
      = (Ok (Tuple2 batch_xs batch_ys),
         Dataset.mk (Dataset.xs d) (Dataset.n d) (Dataset.ys d)
           (Dataset.batch_start d + served) (Dataset.cur_order d), g)
    /\ fancy_index (Dataset.xs d)
         (slice (Dataset.cur_order d) (Dataset.batch_start d)
            (Dataset.batch_start d + served)) = Ok batch_xs
    /\ fancy_index (Dataset.ys d)
         (slice (Dataset.cur_order d) (Dataset.batch_start d)
            (Dataset.batch_start d + served)) = Ok batch_ys
    /\ Z.of_nat (length batch_xs) = served
    /\ Z.of_nat (length batch_ys) = served.
Proof.
  intros Hok Hinv Hbs Hleft served.
  destruct (next_bounded _ _ _ permutation d batch_size reshuffle_after_pass g
              Hok Hinv Hbs Hleft) as [bx [by_ [Hcall [Hx [Hy Hw]]]]].
  exists bx, by_. split; [exact Hcall|].
  rewrite (length_fancy_index _ _ _ Hx), (length_fancy_index _ _ _ Hy).
  auto.
Qed.

(** X3.  An unbounded call on a well-formed sampler with
    [0 <= batch_size <= count - cursor] (a full batch is left) returns the
    flag [False] and the examples at [order[cursor : cursor+batch_size]],
    [batch_size] of each kind; the cursor advances by [batch_size], and the
    order and the generator stay, whatever [reshuffle_after_pass] says. *)
Theorem full_batch_is_window (d : Dataset.t Image Label) (batch_size : Z)
    (reshuffle_after_pass : bool) (g : RNG) :
  example_set_ok d -> sampler_inv d ->
  0 <= batch_size <= Dataset.n d - Dataset.batch_start d ->
  exists batch_xs batch_ys,
    next d batch_size true reshuffle_after_pass g
      = (Ok (Tuple3 batch_xs batch_ys false),
         Dataset.mk (Dataset.xs d) (Dataset.n d) (Dataset.ys d)
           (Dataset.batch_start d + batch_size) (Dataset.cur_order d), g)
    /\ fancy_index (Dataset.xs d)
         (slice (Dataset.cur_order d) (Dataset.batch_start d)
            (Dataset.batch_start d + batch_size)) = Ok batch_xs
    /\ fancy_index (Dataset.ys d)
         (slice (Dataset.cur_order d) (Dataset.batch_start d)
            (Dataset.batch_start d + batch_size)) = Ok batch_ys
    /\ Z.of_nat (length batch_xs) = batch_size
    /\ Z.of_nat (length batch_ys) = batch_size.
Proof.
  intros Hok Hinv Hbs.
  destruct (next_no_wrap _ _ _ permutation d batch_size reshuffle_after_pass g
              Hok Hinv Hbs) as [bx [by_ H]].
  exists bx, by_. exact H.
Qed.

(** X4.  Draining a bounded pass from any cursor of a well-formed sampler
    with [1 <= batch_size <= count] ends on the [ValueError] of a completed
    pass after [ceil((count - cursor) / batch_size)] batches, with the cursor
    on [count], and with the order and the generator as they were. *)
Theorem drain_final_state (fuel : nat) :
  forall (d : Dataset.t Image Label) (batch_size : Z) (g : RNG),
    example_set_ok d -> sampler_inv d ->
    1 <= batch_size <= Dataset.n d ->
    (Z.to_nat (Dataset.n d - Dataset.batch_start d) < fuel)%nat ->
    exists batches,
      Dataset.drain permutation fuel d batch_size g
        = Some (batches, ValueError Dataset.pass_complete,
                Dataset.mk (Dataset.xs d) (Dataset.n d) (Dataset.ys d)
                  (Dataset.n d) (Dataset.cur_order d), g)
      /\ Z.of_nat (length batches)
          = (Dataset.n d - Dataset.batch_start d + batch_size - 1)
              / batch_size.
Proof.
  induction fuel as [|fuel IH]; intros d batch_size g Hok Hinv Hbs Hfuel;
    [lia|].
  pose proof Hinv as [Hp Hc].
  destruct (Z_lt_le_dec (Dataset.batch_start d) (Dataset.n d)) as [Hleft|Hend].
  - destruct (next_bounded _ _ _ permutation d batch_size true g Hok Hinv Hbs
                Hleft) as [bx [by_ [Hcall _]]].
    set (served := Z.min batch_size (Dataset.n d - Dataset.batch_start d))
      in *.
    set (d1 := Dataset.set_batch_start d _) in *.
    assert (Hinv1 : sampler_inv d1) by (split; simpl; [exact Hp|lia]).
    destruct (IH d1 batch_size g Hok Hinv1 Hbs) as [batches [Hdrain Hcount]];
      [simpl; lia|].
    exists (Tuple2 bx by_ :: batches).
    split; [simpl; rewrite Hcall, Hdrain; reflexivity|].
    change (length (Tuple2 bx by_ :: batches)) with (S (length batches)).
    simpl in Hcount. rewrite Nat2Z.inj_succ, Hcount.
    destruct (Z_le_gt_dec (Dataset.n d - Dataset.batch_start d) batch_size)
      as [Hlast|Hmore].
    + replace (Dataset.n d - (Dataset.batch_start d + served) + batch_size - 1)
        with (batch_size - 1) by lia.
      rewrite Z.div_small by lia.
      apply (Z.div_unique _ _ 1 (Dataset.n d - Dataset.batch_start d - 1));
        lia.
    + replace (Dataset.n d - Dataset.batch_start d + batch_size - 1)
        with (Dataset.n d - (Dataset.batch_start d + served) + batch_size - 1
              + 1 * batch_size) by lia.
      rewrite Z.div_add by lia. lia.
  - exists []. simpl.
    assert (Hcall : next d batch_size false true g
                    = (Raise (ValueError Dataset.pass_complete), d, g)).
    { unfold Dataset.get_next_batch.
      destruct (Z.ltb_spec (Dataset.n d) batch_size); [lia|]. simpl.
      destruct (Z.leb_spec
                  (Z.min batch_size (Dataset.n d - Dataset.batch_start d)) 0);
        [reflexivity|lia]. }
    rewrite Hcall. split.
    + destruct d as [x k y c o]. simpl in *.
      replace c with k by lia. reflexivity.
    + symmetry. apply Z.div_small. lia.
Qed.

(** X5.  A sampler built over no example at all: a bounded call never
    returns, whatever the batch size (it raises one of the two
    [ValueError]s); an unbounded call with a positive batch size raises the
    [ValueError] of an oversized batch; an unbounded call with batch size 0
    returns empty arrays and the flag [False].  In each case the sampler and
    the generator are left as they were. *)
Theorem empty_dataset_calls (ys0 : list Label) (g0 g : RNG) (batch_size : Z)
    (reshuffle_after_pass : bool) :
  let d := fst (Dataset.init permutation (@nil Image) ys0 g0) in
  (next d batch_size false reshuffle_after_pass g
     = (Raise (ValueError Dataset.too_large), d, g)
   \/ next d batch_size false reshuffle_after_pass g
      = (Raise (ValueError Dataset.pass_complete), d, g))
  /\ (1 <= batch_size ->
      next d batch_size true reshuffle_after_pass g
        = (Raise (ValueError Dataset.too_large), d, g))
  /\ next d 0 true reshuffle_after_pass g = (Ok (Tuple3 [] [] false), d, g).
Proof.
  unfold Dataset.init. simpl.
  destruct (permutation 0 g0) as [order g1]. simpl.
  unfold Dataset.get_next_batch. simpl.
  split; [|split].
  - destruct (Z.ltb_spec 0 batch_size); [left; reflexivity|].
    right. rewrite Z.min_l by lia.
    destruct (Z.leb_spec batch_size 0); [reflexivity|lia].
  - intros Hbs. destruct (Z.ltb_spec 0 batch_size); [reflexivity|lia].
  - unfold slice, slice_bound. simpl.
    rewrite Z.min_l by lia. simpl. reflexivity.
Qed.

End BatchSamplerMore.

Section StreamingMore.

Variables Image Label RNG : Type.
Variable permutation : Z -> RNG -> list Z * RNG.

Hypothesis permutation_ok :
  forall k g, 0 <= k -> Permutation (fst (permutation k g)) (arange k).

Local Notation "'next'" := (Dataset.get_next_batch permutation).

(** One unbounded call on a well-formed sampler: it returns, with
    [batch_size] examples, and leaves a well-formed sampler. *)
Lemma next_unbounded_ok (d : Dataset.t Image Label) (batch_size : Z)
    (reshuffle_after_pass : bool) (g : RNG) :
  example_set_ok d -> sampler_inv d ->
  0 <= batch_size <= Dataset.n d ->
  exists bx by_ e d' g',
    next d batch_size true reshuffle_after_pass g
      = (Ok (Tuple3 bx by_ e), d', g')
    /\ Z.of_nat (length bx) = batch_size
    /\ Z.of_nat (length by_) = batch_size
    /\ example_set_ok d' /\ sampler_inv d'
    /\ Dataset.n d' = Dataset.n d.
Proof.
  intros Hok Hinv Hbs. pose proof Hinv as [Hp Hc].
  destruct (Z_le_gt_dec batch_size (Dataset.n d - Dataset.batch_start d))
    as [Hfull|Hwrap].
  - destruct (next_no_wrap _ _ _ permutation d batch_size reshuffle_after_pass
                g Hok Hinv) as [bx [by_ [Hcall [_ [_ [Lx Ly]]]]]]; [lia|].
    exists bx, by_, false. eexists. eexists.
    split; [exact Hcall|]. split; [exact Lx|]. split; [exact Ly|].
    split; [exact Hok|]. split; [|reflexivity].
    split; simpl; [exact Hp|lia].
  - destruct (next_wrap _ _ _ permutation permutation_ok d batch_size
                reshuffle_after_pass g Hok Hinv)
      as [bx [by_ [Hcall [_ [_ [Lx [Ly Hq]]]]]]]; [lia|lia|].
    exists bx, by_, true. eexists. eexists.
    split; [exact Hcall|]. split; [exact Lx|]. split; [exact Ly|].
    split; [exact Hok|]. split; [|reflexivity].
    split; simpl; [exact Hq|lia].
Qed.

(** X6.  Unbounded mode never runs dry.  From a well-formed sampler and for
    [0 <= batch_size <= count], any number [k] of successive unbounded calls
    all return: the loop yields [k] 3-tuples, each with exactly [batch_size]
    images and [batch_size] labels, and leaves a well-formed sampler. *)
Theorem draw_never_fails (k : nat) :
  forall (d : Dataset.t Image Label) (batch_size : Z)
         (reshuffle_after_pass : bool) (g : RNG),
    example_set_ok d -> sampler_inv d ->
    0 <= batch_size <= Dataset.n d ->
    exists batches d' g',
      Loop.draw permutation k d batch_size reshuffle_after_pass g
        = (Ok batches, d', g')
      /\ length batches = k
      /\ Forall (fun b => exists bx by_ e,
                     b = Tuple3 bx by_ e
                     /\ Z.of_nat (length bx) = batch_size
                     /\ Z.of_nat (length by_) = batch_size) batches
      /\ example_set_ok d' /\ sampler_inv d'
      /\ Dataset.n d' = Dataset.n d.
Proof.
  induction k as [|k IH]; intros d batch_size reshuffle_after_pass g Hok Hinv
                                 Hbs.
  - exists [], d, g. simpl.
    split; [reflexivity|]. split; [reflexivity|]. split; [constructor|].
    split; [exact Hok|]. split; [exact Hinv|reflexivity].
  - destruct (next_unbounded_ok d batch_size reshuffle_after_pass g Hok Hinv
                Hbs)
      as [bx [by_ [e [d1 [g1 [Hcall [Lx [Ly [Hok1 [Hinv1 Hn]]]]]]]]]].
    destruct (IH d1 batch_size reshuffle_after_pass g1 Hok1 Hinv1)
      as [batches [d' [g' [Hdraw [Hlen [Hall [Hok' [Hinv' Hn']]]]]]]];
      [lia|].
    exists (Tuple3 bx by_ e :: batches), d', g'.
    simpl. rewrite Hcall, Hdraw.
    split; [reflexivity|]. split; [simpl; lia|].
    split; [apply Forall_cons; [exists bx, by_, e; auto|exact Hall]|].
    split; [exact Hok'|]. split; [exact Hinv'|]. lia.
Qed.

(** X7.  The batch after a wrap overlaps the wrap batch.  On a well-formed
    sampler with [left = count - cursor < batch_size] and
    [left + batch_size <= count], the wrapping call reads positions
    [0 .. batch_size) of the order in force after the reset and leaves the
    cursor on [left]; the next call reads positions
    [left .. left + batch_size) of the same order.  The positions
    [left .. batch_size), at least one, are read by both calls. *)
Theorem batch_after_wrap_overlaps (d : Dataset.t Image Label)
    (batch_size : Z) (reshuffle_after_pass : bool) (g : RNG) :
  example_set_ok d -> sampler_inv d ->
  Dataset.n d - Dataset.batch_start d < batch_size ->
  Dataset.n d - Dataset.batch_start d + batch_size <= Dataset.n d ->
  let left := Dataset.n d - Dataset.batch_start d in
  exists bx1 by1 d1 g1 bx2 by2 d2 shared,
    next d batch_size true reshuffle_after_pass g
      = (Ok (Tuple3 bx1 by1 true), d1, g1)
    /\ next d1 batch_size true reshuffle_after_pass g1
        = (Ok (Tuple3 bx2 by2 false), d2, g1)
    /\ Dataset.cur_order d2 = Dataset.cur_order d1
    /\ shared = slice (Dataset.cur_order d1) left batch_size
    /\ Z.of_nat (length shared) = batch_size - left
    /\ fancy_index (Dataset.xs d)
         (slice (Dataset.cur_order d1) 0 left ++ shared) = Ok bx1
    /\ fancy_index (Dataset.xs d)
         (shared ++ slice (Dataset.cur_order d1) batch_size
                      (left + batch_size)) = Ok bx2.
Proof.
  intros Hok Hinv Hw Hroom left. pose proof Hinv as [Hp Hc].
  destruct (next_wrap _ _ _ permutation permutation_ok d batch_size
              reshuffle_after_pass g Hok Hinv Hw)
    as [bx1 [by1 [Hcall1 [Hx1 [_ [_ [_ Hq]]]]]]]; [lia|].
  set (order' := if reshuffle_after_pass
                 then fst (permutation (Dataset.n d) g)
                 else Dataset.cur_order d) in *.
  set (g1 := if reshuffle_after_pass
             then snd (permutation (Dataset.n d) g) else g) in *.
  set (d1 := Dataset.mk (Dataset.xs d) (Dataset.n d) (Dataset.ys d)
               (Dataset.n d - Dataset.batch_start d) order') in *.
  assert (Hinv1 : sampler_inv d1) by (split; simpl; [exact Hq|lia]).
  destruct (next_no_wrap _ _ _ permutation d1 batch_size reshuffle_after_pass
              g1 Hok Hinv1) as [bx2 [by2 [Hcall2 [Hx2 _]]]]; [simpl; lia|].
  simpl in Hx2. fold left in Hx2.
  assert (Hlen : Z.of_nat (length order') = Dataset.n d)
    by (apply order_length; [lia|exact Hq]).
  exists bx1, by1, d1, g1, bx2, by2. eexists. eexists.
  split; [exact Hcall1|]. split; [exact Hcall2|].
  split; [reflexivity|]. split; [reflexivity|]. simpl. fold left.
  split; [apply length_slice; unfold left; lia|].
  split.
  - rewrite <- (slice_split order' 0 left batch_size) by (unfold left; lia).
    exact Hx1.
  - rewrite <- (slice_split order' left batch_size (left + batch_size))
      by (unfold left; lia).
    exact Hx2.
Qed.

(** X8.  The flag comes one call late when a pass ends on a batch boundary.
    On a well-formed sampler with [cursor + batch_size = count] and
    [batch_size >= 1], the call that serves the last examples of the pass,
    those at [order[cursor : count]], returns the flag [False] and leaves the
    cursor on [count]; the next call returns [True] with the examples at
    [order'[0 : batch_size]], [batch_size] of each kind, where [order'] is
    the order in force after the reset (the permutation just drawn when
    [reshuffle_after_pass] holds, the old order otherwise), and leaves the
    cursor on 0; and the call after that returns the very same batch again,
    with the flag [False], the order unchanged and the cursor on
    [batch_size]. *)
Theorem flag_one_call_late (d : Dataset.t Image Label) (batch_size : Z)
    (reshuffle_after_pass : bool) (g : RNG) :
  example_set_ok d -> sampler_inv d ->
  1 <= batch_size ->
  Dataset.batch_start d + batch_size = Dataset.n d ->
  exists bx0 by0 d0 bx by_ d1 g1 d2,
    next d batch_size true reshuffle_after_pass g
      = (Ok (Tuple3 bx0 by0 false), d0, g)
    /\ fancy_index (Dataset.xs d)
         (slice (Dataset.cur_order d) (Dataset.batch_start d) (Dataset.n d))
       = Ok bx0
    /\ fancy_index (Dataset.ys d)
         (slice (Dataset.cur_order d) (Dataset.batch_start d) (Dataset.n d))
       = Ok by0
    /\ Dataset.batch_start d0 = Dataset.n d
    /\ next d0 batch_size true reshuffle_after_pass g
        = (Ok (Tuple3 bx by_ true), d1, g1)
    /\ Dataset.cur_order d1
       = (if reshuffle_after_pass
          then fst (permutation (Dataset.n d) g)
          else Dataset.cur_order d)
    /\ fancy_index (Dataset.xs d) (slice (Dataset.cur_order d1) 0 batch_size)
       = Ok bx
    /\ fancy_index (Dataset.ys d) (slice (Dataset.cur_order d1) 0 batch_size)
       = Ok by_
    /\ Z.of_nat (length bx) = batch_size
    /\ Z.of_nat (length by_) = batch_size
    /\ Dataset.batch_start d1 = 0
    /\ next d1 batch_size true reshuffle_after_pass g1
        = (Ok (Tuple3 bx by_ false), d2, g1)
    /\ Dataset.cur_order d2 = Dataset.cur_order d1
    /\ Dataset.batch_start d2 = batch_size.
Proof.
  intros Hok Hinv Hbs Hend. pose proof Hinv as [Hp Hc].
  destruct (next_no_wrap _ _ _ permutation d batch_size reshuffle_after_pass
              g Hok Hinv) as [bx0 [by0 [Hcall0 [Hx0 [Hy0 _]]]]]; [lia|].
  rewrite Hend in Hx0, Hy0.
  set (d0 := Dataset.set_batch_start d _) in *.
  assert (Hinv0 : sampler_inv d0) by (split; simpl; [exact Hp|lia]).
  destruct (next_wrap _ _ _ permutation permutation_ok d0 batch_size
              reshuffle_after_pass g Hok Hinv0)
    as [bx [by_ [Hcall1 [Hx1 [Hy1 [Lx1 [Ly1 Hq]]]]]]];
    [simpl; lia|simpl; lia|].
  simpl in Hcall1, Hx1, Hy1, Hq.
  set (order' := if reshuffle_after_pass
                 then fst (permutation (Dataset.n d) g)
                 else Dataset.cur_order d) in *.
  set (g1 := if reshuffle_after_pass
             then snd (permutation (Dataset.n d) g) else g) in *.
  set (d1 := Dataset.mk (Dataset.xs d) (Dataset.n d) (Dataset.ys d)
               (Dataset.n d - (Dataset.batch_start d + batch_size)) order')
    in *.
  assert (Hinv1 : sampler_inv d1) by (split; simpl; [exact Hq|lia]).
  destruct (next_no_wrap _ _ _ permutation d1 batch_size reshuffle_after_pass
              g1 Hok Hinv1) as [bx2 [by2 [Hcall2 [Hx2 [Hy2 _]]]]];
    [simpl; lia|].
  simpl in Hx2, Hy2.
  replace (Dataset.n d - (Dataset.batch_start d + batch_size)) with 0
    in Hx2, Hy2 by lia.
  simpl in Hx2, Hy2. rewrite Hx1 in Hx2. rewrite Hy1 in Hy2.
  inversion Hx2. inversion Hy2. subst bx2 by2.
  exists bx0, by0, d0, bx, by_, d1, g1. eexists.
  split; [exact Hcall0|]. split; [exact Hx0|]. split; [exact Hy0|].
  split; [simpl; lia|].
  split; [exact Hcall1|]. split; [reflexivity|].
  split; [exact Hx1|]. split; [exact Hy1|].
  split; [exact Lx1|]. split; [exact Ly1|].
  split; [simpl; lia|].
  split; [exact Hcall2|]. split; [reflexivity|]. simpl. lia.
Qed.

End StreamingMore.

(** ** Further properties of the augmenting wrapper *)

Section AugmentingMore.

Variables Image Label RNG Sess : Type.
Variable permutation : Z -> RNG -> list Z * RNG.

Local Notation "'next'" := (Dataset.get_next_batch permutation).
Local Notation "'augmented_next'" :=
  (AugmentedDataset.get_next_batch permutation).

(** X9.  The two places where the wrapper raises before it reaches
    [sess.run].  When the inner call raises, the wrapper raises the same
    exception; when the inner call returns a 2-tuple, reading element 2
    raises [IndexError].  In both cases the graph has not been run (the
    session is the one the call was given), while the wrapped sampler and
    the generator are as the inner call left them.  With [batch_size] above
    the count of the wrapped sampler the inner call raises the [ValueError]
    of an oversized batch, in either mode, and the wrapper, the generator
    and the session are all as before.  (An exception raised by [sess.run]
    itself is outside this statement.) *)
Theorem wrapper_failure_leaves_session
    (a : AugmentedDataset.t Image Label Sess) (batch_size : Z)
    (multiple_passes reshuffle_after_pass : bool) (g : RNG) (s : Sess) :
  let '(res, a', g', s') :=
    augmented_next a batch_size multiple_passes reshuffle_after_pass g s in
  let '(raw_res, raw', g_raw) :=
    next (AugmentedDataset.raw_datasubset a) batch_size multiple_passes
      reshuffle_after_pass g in
  (forall e, raw_res = Raise e ->
             res = Raise e /\ s' = s
             /\ AugmentedDataset.raw_datasubset a' = raw' /\ g' = g_raw)
  /\ (forall batch_xs batch_ys,
         raw_res = Ok (Tuple2 batch_xs batch_ys) ->
         res = Raise IndexError /\ s' = s
         /\ AugmentedDataset.raw_datasubset a' = raw' /\ g' = g_raw)
  /\ (Dataset.n (AugmentedDataset.raw_datasubset a) < batch_size ->
      res = Raise (ValueError Dataset.too_large)
      /\ a' = a /\ g' = g /\ s' = s).
Proof.
  unfold AugmentedDataset.get_next_batch.
  destruct (next (AugmentedDataset.raw_datasubset a) batch_size
              multiple_passes reshuffle_after_pass g)
    as [[raw_res raw'] g_raw] eqn:Hcall.
  assert (Hbig : Dataset.n (AugmentedDataset.raw_datasubset a) < batch_size ->
                 raw_res = Raise (ValueError Dataset.too_large)
                 /\ raw' = AugmentedDataset.raw_datasubset a /\ g_raw = g).
  { intros Hbig. unfold Dataset.get_next_batch in Hcall.
    destruct (Z.ltb_spec (Dataset.n (AugmentedDataset.raw_datasubset a))
                batch_size); [|lia].
    inversion Hcall. auto. }
  destruct raw_res as [b|e0].
  - destruct b as [bx by_|bx by_ flag]; simpl.
    + split; [discriminate|]. split; [auto|].
      intros Hlt. destruct (Hbig Hlt) as [Hres _]. discriminate.
    + destruct (AugmentedDataset.augmented a bx s) as [images s'].
      split; [discriminate|]. split; [discriminate|].
      intros Hlt. destruct (Hbig Hlt) as [Hres _]. discriminate.
  - split; [intros e He; inversion He; auto|]. split; [discriminate|].
    intros Hlt. destruct (Hbig Hlt) as [Hres [Hraw Hg]].
    inversion Hres. subst. destruct a. simpl. auto.
Qed.

Hypothesis permutation_ok :
  forall k g, 0 <= k -> Permutation (fst (permutation k g)) (arange k).

(** X10.  Unbounded sampling through a wrapper whose graph is [map_fn fn],
    over a well-formed sampler and with [0 <= batch_size <= count], always
    returns: the inner call yields a 3-tuple, its labels and flag are handed
    on untouched, the images are [batch_size] in number, the [i]-th being
    [fn] run on the [i]-th drawn image, the session has seen one run of [fn]
    per drawn image, and the wrapped sampler is as the inner call left
    it. *)
Theorem wrapper_full_batches (a : AugmentedDataset.t Image Label Sess)
    (fn : Image -> Sess -> Image * Sess) (batch_size : Z)
    (reshuffle_after_pass : bool) (g : RNG) (s : Sess) :
  AugmentedDataset.augmented a = AugmentedDataset.map_fn fn ->
  example_set_ok (AugmentedDataset.raw_datasubset a) ->
  sampler_inv (AugmentedDataset.raw_datasubset a) ->
  0 <= batch_size <= Dataset.n (AugmentedDataset.raw_datasubset a) ->
  let '(res, a', g', s') :=
    augmented_next a batch_size true reshuffle_after_pass g s in
  let '(raw_res, raw', g_raw) :=
    next (AugmentedDataset.raw_datasubset a) batch_size true
      reshuffle_after_pass g in
  exists bx by_ e images,
    raw_res = Ok (Tuple3 bx by_ e)
    /\ res = Ok (images, by_, e)
    /\ Z.of_nat (length images) = batch_size
    /\ Z.of_nat (length by_) = batch_size
    /\ (forall (i : nat) (x : Image),
          nth_error bx i = Some x ->
          nth_error images i
          = Some (fst (fn x (AugmentedDataset.sess_after fn (firstn i bx) s))))
    /\ s' = AugmentedDataset.sess_after fn bx s
    /\ AugmentedDataset.raw_datasubset a' = raw'
    /\ g' = g_raw.
Proof.
  intros Hgraph Hok Hinv Hbs.
  destruct (next_unbounded_ok _ _ _ permutation permutation_ok
              (AugmentedDataset.raw_datasubset a) batch_size
              reshuffle_after_pass g Hok Hinv Hbs)
    as [bx [by_ [e [raw' [g_raw [Hcall [Lx [Ly _]]]]]]]].
  unfold AugmentedDataset.get_next_batch. rewrite Hcall. simpl.
  rewrite Hgraph.
  pose proof (map_fn_length _ _ fn bx s) as Hlen.
  pose proof (map_fn_snd _ _ fn bx s) as Hsess.
  pose proof (map_fn_nth _ _ fn bx s) as Hnth.
  destruct (AugmentedDataset.map_fn fn bx s) as [images s']. simpl in *.
  exists bx, by_, e, images.
  split; [reflexivity|]. split; [reflexivity|].
  split; [lia|]. split; [exact Ly|]. split; [exact Hnth|].
  split; [exact Hsess|]. split; reflexivity.
Qed.

End AugmentingMore.

(** X11.  Building [AugmentedCIFAR100Data] wraps the two samplers it is
    given without touching them.  The training wrapper holds no cache; the
    evaluation wrapper holds as many images as the evaluation set, that
    number as its count, and the evaluation labels.  The label names are
    handed on, and the session is advanced by the flips of the evaluation
    images only. *)
Theorem augmented_data_init (Image Label Sess : Type)
    (random_flip_left_right : Image -> Sess -> Image * Sess)
    (raw_cifar100data : AugmentedCIFAR100Data.raw Image Label) (s : Sess) :
  let '(data, s') :=
    AugmentedCIFAR100Data.init random_flip_left_right raw_cifar100data s in
  let train := AugmentedCIFAR100Data.train_data data in
  let eval := AugmentedCIFAR100Data.eval_data data in
  let raw_eval := AugmentedCIFAR100Data.raw_eval_data _ _ raw_cifar100data in
  AugmentedDataset.raw_datasubset train
    = AugmentedCIFAR100Data.raw_train_data _ _ raw_cifar100data
  /\ AugmentedDataset.xs train = None
  /\ AugmentedDataset.n train = None
  /\ AugmentedDataset.ys train = None
  /\ AugmentedDataset.raw_datasubset eval = raw_eval
  /\ (exists cached,
        AugmentedDataset.xs eval = Some cached
        /\ length cached = length (Dataset.xs raw_eval)
        /\ AugmentedDataset.n eval
           = Some (Z.of_nat (length (Dataset.xs raw_eval))))
  /\ AugmentedDataset.ys eval = Some (Dataset.ys raw_eval)
  /\ AugmentedCIFAR100Data.label_names data
     = AugmentedCIFAR100Data.raw_label_names _ _ raw_cifar100data
  /\ s' = AugmentedDataset.sess_after random_flip_left_right
            (Dataset.xs raw_eval) s.
Proof.
  unfold AugmentedCIFAR100Data.init, AugmentedDataset.init.
  pose proof (map_fn_length _ _ random_flip_left_right
                (Dataset.xs (AugmentedCIFAR100Data.raw_eval_data _ _
                               raw_cifar100data)) s) as Hlen.
  pose proof (map_fn_snd _ _ random_flip_left_right
                (Dataset.xs (AugmentedCIFAR100Data.raw_eval_data _ _
                               raw_cifar100data)) s) as Hsess.
  destruct (AugmentedDataset.map_fn random_flip_left_right _ s)
    as [cached s']. simpl in *.
  repeat split; try reflexivity; try assumption.
  exists cached. rewrite Hlen. auto.
Qed.

(** ** The loader *)

Section ChunkFacts.

Context {A : Type}.

Lemma length_chunks (count size : nat) (l : list A) :
  length (CIFAR100Data.chunks count size l) = count.
Proof.
  revert l. induction count as [|count IH]; intros l; simpl;
    [reflexivity|]. rewrite IH. reflexivity.
Qed.

Lemma chunks_concat (size : nat) (rows : list (list A)) :
  Forall (fun row => length row = size) rows ->
  CIFAR100Data.chunks (length rows) size (concat rows) = rows.
Proof.
  induction 1 as [|row rows Hrow _ IH]; simpl; [reflexivity|].
  rewrite firstn_app, skipn_app, Hrow, Nat.sub_diag. simpl.
  rewrite firstn_all2, skipn_all2 by lia. simpl.
  rewrite app_nil_r, IH. reflexivity.
Qed.

Lemma nth_chunks (count size : nat) :
  forall (i : nat) (l : list A),
    (i < count)%nat ->
    nth i (CIFAR100Data.chunks count size l) []
    = firstn size (skipn (i * size) l).
Proof.
  induction count as [|count IH]; intros i l Hi; [lia|].
  destruct i as [|i]; simpl; [reflexivity|].
  rewrite IH by lia. rewrite skipn_skipn.
  replace (i * size + size)%nat with (size + i * size)%nat by lia.
  reflexivity.
Qed.

Lemma nth_piece (size start j : nat) (l : list A) (d : A) :
  (j < size)%nat ->
  nth j (firstn size (skipn start l)) d = nth (start + j) l d.
Proof.
  intros Hj. rewrite nth_firstn.
  destruct (Nat.ltb_spec j size); [|lia]. apply nth_skipn.
Qed.

Lemma nth_map_seq {B : Type} (f : nat -> B) (k i : nat) (d : B) :
  (i < k)%nat -> nth i (map f (seq 0 k)) d = f i.
Proof.
  intros Hi. rewrite (nth_indep _ d (f 0%nat))
    by (rewrite length_map, length_seq; exact Hi).
  rewrite map_nth, seq_nth by exact Hi. reflexivity.
Qed.

End ChunkFacts.

(** The image of one row of 3072 entries: the reshaped row, transposed. *)
Lemma row_layout (row : list Z) (r c ch : nat) :
  (r < 32)%nat -> (c < 32)%nat -> (ch < 3)%nat ->
  nth c (nth r (nth ch (map (CIFAR100Data.chunks 32 32)
                          (CIFAR100Data.chunks 3 1024 row)) []) []) 0
  = nth (ch * 1024 + r * 32 + c) row 0.
Proof.
  intros Hr Hc Hch.
  rewrite (nth_indep _ [] (CIFAR100Data.chunks 32 32 []))
    by (rewrite length_map, length_chunks; exact Hch).
  rewrite map_nth, (nth_chunks 3 1024 ch row Hch).
  rewrite (nth_chunks 32 32 r _ Hr).
  rewrite (nth_piece 32 (r * 32) c) by exact Hc.
  rewrite (nth_piece 1024 (ch * 1024) (r * 32 + c)) by lia.
  f_equal. lia.
Qed.

(** The number of rows times the width is the number of rows times 3072
    exactly when there is no row or the width is 3072. *)
Lemma reshape_accepts (a : CIFAR100Data.ndarray2) :
  (length (CIFAR100Data.rows a) * CIFAR100Data.cols a
   =? length (CIFAR100Data.rows a) * (3 * 32 * 32))%nat = true
  <-> (CIFAR100Data.rows a = [] \/ CIFAR100Data.cols a = 3072%nat).
Proof.
  rewrite Nat.eqb_eq. change (3 * 32 * 32)%nat with 3072%nat.
  destruct (CIFAR100Data.rows a) as [|row rows]; simpl length.
  - split; auto.
  - split.
    + intros H. right. apply Nat.mul_cancel_l in H; [exact H|lia].
    + intros [H| ->]; [discriminate|reflexivity].
Qed.

Lemma load_datafile_inv (data_dict : CIFAR100Data.datafile)
    (images : list CIFAR100Data.image) (labels : list Z) :
  CIFAR100Data._load_datafile data_dict = CIFAR100Data.Return (images, labels) ->
  exists a,
    CIFAR100Data.data data_dict = Some a
    /\ CIFAR100Data.dtype_of a = CIFAR100Data.uint8
    /\ (CIFAR100Data.rows a = [] \/ CIFAR100Data.cols a = 3072%nat)
    /\ CIFAR100Data.fine_labels data_dict = Some labels
    /\ length images = length (CIFAR100Data.rows a).
Proof.
  unfold CIFAR100Data._load_datafile, CIFAR100Data.reshape_n_3_32_32.
  destruct (CIFAR100Data.data data_dict) as [a|]; [|discriminate].
  destruct (CIFAR100Data.dtype_of a) eqn:Hdt; [|discriminate].
  destruct (_ =? _)%nat eqn:Hsize; [|discriminate].
  destruct (CIFAR100Data.fine_labels data_dict) as [l|]; [|discriminate].
  intros H.
  assert (Hl := f_equal (fun o => match o with
                                  | CIFAR100Data.Return (_, l0) => l0
                                  | CIFAR100Data.Throw _ => []
                                  end) H).
  assert (Hi := f_equal (fun o => match o with
                                  | CIFAR100Data.Return (i0, _) => i0
                                  | CIFAR100Data.Throw _ => []
                                  end) H).
  cbv beta iota in Hl, Hi. clear H. subst l images. exists a.
  split; [reflexivity|]. split; [exact Hdt|].
  split; [apply reshape_accepts; exact Hsize|]. split; [reflexivity|].
  unfold CIFAR100Data.transpose_0_2_3_1.
  rewrite !length_map, length_chunks. reflexivity.
Qed.

(** X12.  A data file loads exactly when it has an array under [data] whose
    element type is [uint8] and which either has no row or has rows of 3072
    entries, and a list under [fine_labels]; the labels returned are that
    list, whose length is not compared with the number of images. *)
Theorem load_datafile_succeeds_iff (data_dict : CIFAR100Data.datafile)
    (labels : list Z) :
  (exists images,
      CIFAR100Data._load_datafile data_dict
      = CIFAR100Data.Return (images, labels))
  <-> (exists a,
          CIFAR100Data.data data_dict = Some a
          /\ CIFAR100Data.dtype_of a = CIFAR100Data.uint8
          /\ (CIFAR100Data.rows a = [] \/ CIFAR100Data.cols a = 3072%nat)
          /\ CIFAR100Data.fine_labels data_dict = Some labels).
Proof.
  split.
  - intros [images H]. destruct (load_datafile_inv _ _ _ H)
      as [a [Ha [Hdt [Hshape [Hl _]]]]].
    exists a. auto.
  - intros [a [Ha [Hdt [Hshape Hl]]]].
    unfold CIFAR100Data._load_datafile, CIFAR100Data.reshape_n_3_32_32.
    rewrite Ha, Hdt, Hl.
    apply reshape_accepts in Hshape. rewrite Hshape. eauto.
Qed.

(** X13.  The layout of a loaded image.  From a [uint8] array whose rows
    have 3072 entries the loader returns one image per row, each of shape
    (32, 32, 3); entry [r, c, ch] of the [i]-th image is entry
    [ch * 1024 + r * 32 + c] of the [i]-th row: the three colour planes
    stored one after the other become the innermost axis. *)
Theorem load_datafile_layout (a : CIFAR100Data.ndarray2) (labels : list Z) :
  CIFAR100Data.dtype_of a = CIFAR100Data.uint8 ->
  CIFAR100Data.cols a = 3072%nat ->
  Forall (fun row => length row = 3072%nat) (CIFAR100Data.rows a) ->
  exists images,
    CIFAR100Data._load_datafile
      (CIFAR100Data.mk_datafile (Some a) (Some labels))
    = CIFAR100Data.Return (images, labels)
    /\ length images = length (CIFAR100Data.rows a)
    /\ Forall (fun img =>
                 length img = 32%nat
                 /\ Forall (fun line =>
                              length line = 32%nat
                              /\ Forall (fun px => length px = 3%nat) line)
                      img) images
    /\ forall (i : nat) (row : list Z) (img : CIFAR100Data.image),
        nth_error (CIFAR100Data.rows a) i = Some row ->
        nth_error images i = Some img ->
        forall r c ch : nat,
          (r < 32)%nat -> (c < 32)%nat -> (ch < 3)%nat ->
          nth ch (nth c (nth r img []) []) 0
          = nth (ch * 1024 + r * 32 + c) row 0.
Proof.
  intros Hdt Hcols Hrows.
  unfold CIFAR100Data._load_datafile, CIFAR100Data.reshape_n_3_32_32.
  cbn [CIFAR100Data.data CIFAR100Data.fine_labels].
  rewrite Hdt, Hcols. rewrite Nat.eqb_refl.
  rewrite (chunks_concat 3072 _ Hrows).
  eexists. split; [reflexivity|].
  unfold CIFAR100Data.transpose_0_2_3_1. rewrite map_map.
  split; [apply length_map|]. split.
  - apply Forall_map. apply Forall_forall. intros row _.
    rewrite length_map, length_seq. split; [reflexivity|].
    apply Forall_map. apply Forall_forall. intros r _.
    rewrite length_map, length_seq. split; [reflexivity|].
    apply Forall_map. apply Forall_forall. intros c _.
    rewrite length_map, length_seq. reflexivity.
  - intros i row img Hrow Himg r c ch Hr Hc Hch.
    rewrite nth_error_map, Hrow in Himg. cbn [option_map] in Himg.
    apply (f_equal (fun o => match o with Some v => v | None => [] end))
      in Himg.
    cbv beta iota in Himg. subst img.
    rewrite (nth_map_seq _ 32 r []) by exact Hr.
    rewrite (nth_map_seq _ 32 c []) by exact Hc.
    rewrite (nth_map_seq _ 3 ch 0) by exact Hch.
    apply row_layout; assumption.
Qed.

Section LoadedSamplers.

Variable RNG : Type.
Variable permutation : Z -> RNG -> list Z * RNG.
Variable decode : string -> option string.

Hypothesis permutation_ok :
  forall k g, 0 <= k -> Permutation (fst (permutation k g)) (arange k).

Lemma init_fresh {Image Label : Type} (xs0 : list Image) (ys0 : list Label)
    (g : RNG) :
  let d := fst (Dataset.init permutation xs0 ys0 g) in
  sampler_inv d
  /\ Dataset.batch_start d = 0
  /\ Dataset.n d = Z.of_nat (length xs0)
  /\ Dataset.xs d = xs0
  /\ Dataset.ys d = ys0.
Proof.
  unfold Dataset.init.
  pose proof (permutation_ok (Z.of_nat (length xs0)) g) as Hp.
  destruct (permutation _ g) as [order g']. simpl in *.
  repeat split; try reflexivity; simpl; try lia. apply Hp. lia.
Qed.

Lemma length_decode_names (names out : list string) :
  CIFAR100Data.decode_names decode names = CIFAR100Data.Return out ->
  length out = length names.
Proof.
  revert out. induction names as [|name names IH]; simpl; intros out H.
  - inversion H. reflexivity.
  - destruct (decode name); [|discriminate].
    destruct (CIFAR100Data.decode_names decode names) as [rest|];
      [|discriminate].
    inversion H. simpl. f_equal. apply IH. reflexivity.
Qed.

(** X14.  When [CIFAR100Data] is built without an exception, its two
    samplers are fresh and satisfy the sampler invariant: cursor 0, an order
    that is a permutation of the indices, a count equal to the number of
    rows of the file's array, one image per row, and as labels the list
    stored in the file.  There is one decoded name per name of the meta
    file. *)
Theorem cifar100data_init_samplers
    (train_file eval_file : CIFAR100Data.datafile)
    (meta : CIFAR100Data.metafile) (g g' : RNG)
    (c : AugmentedCIFAR100Data.raw CIFAR100Data.image Z) :
  CIFAR100Data.init permutation decode train_file eval_file meta g
  = (CIFAR100Data.Return c, g') ->
  let train := AugmentedCIFAR100Data.raw_train_data _ _ c in
  let eval := AugmentedCIFAR100Data.raw_eval_data _ _ c in
  sampler_inv train /\ sampler_inv eval
  /\ Dataset.batch_start train = 0 /\ Dataset.batch_start eval = 0
  /\ (exists a,
        CIFAR100Data.data train_file = Some a
        /\ Dataset.n train = Z.of_nat (length (CIFAR100Data.rows a))
        /\ length (Dataset.xs train) = length (CIFAR100Data.rows a))
  /\ (exists a,
        CIFAR100Data.data eval_file = Some a
        /\ Dataset.n eval = Z.of_nat (length (CIFAR100Data.rows a))
        /\ length (Dataset.xs eval) = length (CIFAR100Data.rows a))
  /\ CIFAR100Data.fine_labels train_file = Some (Dataset.ys train)
  /\ CIFAR100Data.fine_labels eval_file = Some (Dataset.ys eval)
  /\ (exists names,
        CIFAR100Data.fine_label_names meta = Some names
        /\ length (AugmentedCIFAR100Data.raw_label_names _ _ c)
           = length names).
Proof.
  unfold CIFAR100Data.init.
  destruct (CIFAR100Data._load_datafile train_file)
    as [[train_images train_labels]|] eqn:Htrain; [|discriminate].
  destruct (CIFAR100Data._load_datafile eval_file)
    as [[eval_images eval_labels]|] eqn:Heval; [|discriminate].
  destruct (CIFAR100Data.fine_label_names meta) as [names|]; [|discriminate].
  destruct (CIFAR100Data.decode_names decode names) as [label_names|]
    eqn:Hnames; [|discriminate].
  pose proof (init_fresh train_images train_labels g) as Ft.
  destruct (Dataset.init permutation train_images train_labels g)
    as [train_data g1].
  pose proof (init_fresh eval_images eval_labels g1) as Fe.
  destruct (Dataset.init permutation eval_images eval_labels g1)
    as [eval_data g2].
  simpl in Ft, Fe. destruct Ft as [It [Ct [Nt [Xt Yt]]]].
  destruct Fe as [Ie [Ce [Ne [Xe Ye]]]].
  destruct (load_datafile_inv _ _ _ Htrain) as [ta [Hta [_ [_ [Lt Rt]]]]].
  destruct (load_datafile_inv _ _ _ Heval) as [ea [Hea [_ [_ [Le Re]]]]].
  intros H. inversion H. subst c g'. simpl.
  split; [exact It|]. split; [exact Ie|].
  split; [exact Ct|]. split; [exact Ce|].
  split; [exists ta; rewrite Nt, Xt, Rt; auto|].
  split; [exists ea; rewrite Ne, Xe, Re; auto|].
  rewrite Yt, Ye. split; [exact Lt|]. split; [exact Le|].
  exists names. split; [reflexivity|].
  apply length_decode_names. exact Hnames.
Qed.

End LoadedSamplers.

(** ** The further properties at concrete inputs *)

Lemma bounded_batch_is_window_witness :
  let served :=
    Z.min 2 (Dataset.n Sample.three_at_two
             - Dataset.batch_start Sample.three_at_two) in
  exists batch_xs batch_ys,
    Dataset.get_next_batch Sample.rotation Sample.three_at_two 2 false true
      0%nat
      = (Ok (Tuple2 batch_xs batch_ys),
         Dataset.mk (Dataset.xs Sample.three_at_two)
           (Dataset.n Sample.three_at_two) (Dataset.ys Sample.three_at_two)
           (Dataset.batch_start Sample.three_at_two + served)
           (Dataset.cur_order Sample.three_at_two), 0%nat)
    /\ fancy_index (Dataset.xs Sample.three_at_two)
         (slice (Dataset.cur_order Sample.three_at_two)
            (Dataset.batch_start Sample.three_at_two)
            (Dataset.batch_start Sample.three_at_two + served)) = Ok batch_xs
    /\ fancy_index (Dataset.ys Sample.three_at_two)
         (slice (Dataset.cur_order Sample.three_at_two)
            (Dataset.batch_start Sample.three_at_two)
            (Dataset.batch_start Sample.three_at_two + served)) = Ok batch_ys
    /\ Z.of_nat (length batch_xs) = served
    /\ Z.of_nat (length batch_ys) = served.
Proof.
  apply (bounded_batch_is_window Z Z nat Sample.rotation Sample.three_at_two
           2 true 0%nat).
  - split; reflexivity.
  - split; [apply Permutation_refl|simpl; lia].
  - simpl. lia.
  - simpl. lia.
Defined.

Lemma full_batch_is_window_witness :
  exists batch_xs batch_ys,
    Dataset.get_next_batch Sample.rotation Sample.three_fresh 2 true true
      0%nat
      = (Ok (Tuple3 batch_xs batch_ys false),
         Dataset.mk (Dataset.xs Sample.three_fresh)
           (Dataset.n Sample.three_fresh) (Dataset.ys Sample.three_fresh)
           (Dataset.batch_start Sample.three_fresh + 2)
           (Dataset.cur_order Sample.three_fresh), 0%nat)
    /\ fancy_index (Dataset.xs Sample.three_fresh)
         (slice (Dataset.cur_order Sample.three_fresh)
            (Dataset.batch_start Sample.three_fresh)
            (Dataset.batch_start Sample.three_fresh + 2)) = Ok batch_xs
    /\ fancy_index (Dataset.ys Sample.three_fresh)
         (slice (Dataset.cur_order Sample.three_fresh)
            (Dataset.batch_start Sample.three_fresh)
            (Dataset.batch_start Sample.three_fresh + 2)) = Ok batch_ys
    /\ Z.of_nat (length batch_xs) = 2
    /\ Z.of_nat (length batch_ys) = 2.
Proof.
  apply (full_batch_is_window Z Z nat Sample.rotation Sample.three_fresh 2
           true 0%nat).
  - split; reflexivity.
  - split; [apply Permutation_refl|simpl; lia].
  - simpl. lia.
Defined.

Lemma drain_final_state_witness :
  exists batches,
    Dataset.drain Sample.rotation 4 Sample.three_fresh 2 0%nat
      = Some (batches, ValueError Dataset.pass_complete,
              Dataset.mk (Dataset.xs Sample.three_fresh)
                (Dataset.n Sample.three_fresh) (Dataset.ys Sample.three_fresh)
                (Dataset.n Sample.three_fresh)
                (Dataset.cur_order Sample.three_fresh), 0%nat)
    /\ Z.of_nat (length batches)
        = (Dataset.n Sample.three_fresh
           - Dataset.batch_start Sample.three_fresh + 2 - 1) / 2.
Proof.
  apply (drain_final_state Z Z nat Sample.rotation 4 Sample.three_fresh 2
           0%nat).
  - split; reflexivity.
  - split; [apply Permutation_refl|simpl; lia].
  - simpl. lia.
  - simpl. lia.
Defined.

Lemma draw_never_fails_witness :
  exists batches d' g',
    Loop.draw Sample.rotation 3 Sample.three_fresh 2 true 0%nat
      = (Ok batches, d', g')
    /\ length batches = 3%nat
    /\ Forall (fun b => exists bx by_ e,
                   b = Tuple3 bx by_ e
                   /\ Z.of_nat (length bx) = 2
                   /\ Z.of_nat (length by_) = 2) batches
    /\ example_set_ok d' /\ sampler_inv d'
    /\ Dataset.n d' = Dataset.n Sample.three_fresh.
Proof.
  apply (draw_never_fails Z Z nat Sample.rotation rotation_ok 3
           Sample.three_fresh 2 true 0%nat).
  - split; reflexivity.
  - split; [apply Permutation_refl|simpl; lia].
  - simpl. lia.
Defined.

Lemma batch_after_wrap_overlaps_witness :
  let left :=
    Dataset.n Fixture.ten_at_eight - Dataset.batch_start Fixture.ten_at_eight
  in
  exists bx1 by1 d1 g1 bx2 by2 d2 shared,
    Dataset.get_next_batch Sample.rotation Fixture.ten_at_eight 4 true true
      1%nat
      = (Ok (Tuple3 bx1 by1 true), d1, g1)
    /\ Dataset.get_next_batch Sample.rotation d1 4 true true g1
        = (Ok (Tuple3 bx2 by2 false), d2, g1)
    /\ Dataset.cur_order d2 = Dataset.cur_order d1
    /\ shared = slice (Dataset.cur_order d1) left 4
    /\ Z.of_nat (length shared) = 4 - left
    /\ fancy_index (Dataset.xs Fixture.ten_at_eight)
         (slice (Dataset.cur_order d1) 0 left ++ shared) = Ok bx1
    /\ fancy_index (Dataset.xs Fixture.ten_at_eight)
         (shared ++ slice (Dataset.cur_order d1) 4 (left + 4)) = Ok bx2.
Proof.
  apply (batch_after_wrap_overlaps Z Z nat Sample.rotation rotation_ok
           Fixture.ten_at_eight 4 true 1%nat).
  - split; reflexivity.
  - split; [apply Permutation_refl|simpl; lia].
  - simpl. lia.
  - simpl. lia.
Defined.

Lemma flag_one_call_late_witness :
  exists bx0 by0 d0 bx by_ d1 g1 d2,
    Dataset.get_next_batch Sample.rotation Sample.three_at_two 1 true true
      1%nat
      = (Ok (Tuple3 bx0 by0 false), d0, 1%nat)
    /\ fancy_index (Dataset.xs Sample.three_at_two)
         (slice (Dataset.cur_order Sample.three_at_two)
            (Dataset.batch_start Sample.three_at_two)
            (Dataset.n Sample.three_at_two))
       = Ok bx0
    /\ fancy_index (Dataset.ys Sample.three_at_two)
         (slice (Dataset.cur_order Sample.three_at_two)
            (Dataset.batch_start Sample.three_at_two)
            (Dataset.n Sample.three_at_two))
       = Ok by0
    /\ Dataset.batch_start d0 = Dataset.n Sample.three_at_two
    /\ Dataset.get_next_batch Sample.rotation d0 1 true true 1%nat
        = (Ok (Tuple3 bx by_ true), d1, g1)
    /\ Dataset.cur_order d1
       = fst (Sample.rotation (Dataset.n Sample.three_at_two) 1%nat)
    /\ fancy_index (Dataset.xs Sample.three_at_two)
         (slice (Dataset.cur_order d1) 0 1)
       = Ok bx
    /\ fancy_index (Dataset.ys Sample.three_at_two)
         (slice (Dataset.cur_order d1) 0 1)
       = Ok by_
    /\ Z.of_nat (length bx) = 1
    /\ Z.of_nat (length by_) = 1
    /\ Dataset.batch_start d1 = 0
    /\ Dataset.get_next_batch Sample.rotation d1 1 true true g1
        = (Ok (Tuple3 bx by_ false), d2, g1)
    /\ Dataset.cur_order d2 = Dataset.cur_order d1
    /\ Dataset.batch_start d2 = 1.
Proof.
  apply (flag_one_call_late Z Z nat Sample.rotation rotation_ok
           Sample.three_at_two 1 true 1%nat).
  - split; reflexivity.
  - split; [apply Permutation_refl|simpl; lia].
  - lia.
  - reflexivity.
Defined.

Lemma wrapper_full_batches_witness :
  let '(res, a', g', s') :=
    AugmentedDataset.get_next_batch Sample.rotation (fst Sample.cached_wrapper)
      1 true true 0%nat [false] in
  let '(raw_res, raw', g_raw) :=
    Dataset.get_next_batch Sample.rotation
      (AugmentedDataset.raw_datasubset (fst Sample.cached_wrapper)) 1 true
      true 0%nat in
  exists bx by_ e images,
    raw_res = Ok (Tuple3 bx by_ e)
    /\ res = Ok (images, by_, e)
    /\ Z.of_nat (length images) = 1
    /\ Z.of_nat (length by_) = 1
    /\ (forall (i : nat) (x : list Z),
          nth_error bx i = Some x ->
          nth_error images i
          = Some (fst (Sample.coin_flip x
                         (AugmentedDataset.sess_after Sample.coin_flip
                            (firstn i bx) [false]))))
    /\ s' = AugmentedDataset.sess_after Sample.coin_flip bx [false]
    /\ AugmentedDataset.raw_datasubset a' = raw'
    /\ g' = g_raw.
Proof.
  apply (wrapper_full_batches (list Z) Z nat (list bool) Sample.rotation
           rotation_ok (fst Sample.cached_wrapper) Sample.coin_flip 1 true
           0%nat [false]).
  - reflexivity.
  - split; reflexivity.
  - split; [apply Permutation_refl|simpl; lia].
  - simpl. lia.
Defined.

Lemma load_datafile_layout_witness :
  exists images,
    CIFAR100Data._load_datafile
      (CIFAR100Data.mk_datafile (Some Fixture.one_row) (Some [5]))
    = CIFAR100Data.Return (images, [5])
    /\ length images = length (CIFAR100Data.rows Fixture.one_row)
    /\ Forall (fun img =>
                 length img = 32%nat
                 /\ Forall (fun line =>
                              length line = 32%nat
                              /\ Forall (fun px => length px = 3%nat) line)
                      img) images
    /\ forall (i : nat) (row : list Z) (img : CIFAR100Data.image),
        nth_error (CIFAR100Data.rows Fixture.one_row) i = Some row ->
        nth_error images i = Some img ->
        forall r c ch : nat,
          (r < 32)%nat -> (c < 32)%nat -> (ch < 3)%nat ->
          nth ch (nth c (nth r img []) []) 0
          = nth (ch * 1024 + r * 32 + c) row 0.
Proof.
  apply (load_datafile_layout Fixture.one_row [5]).
  - reflexivity.
  - reflexivity.
  - constructor; [vm_compute; reflexivity|constructor].
Defined.

Lemma cifar100data_init_samplers_witness :
  let train :=
    AugmentedCIFAR100Data.raw_train_data _ _ Fixture.one_file_data in
  let eval := AugmentedCIFAR100Data.raw_eval_data _ _ Fixture.one_file_data in
  sampler_inv train /\ sampler_inv eval
  /\ Dataset.batch_start train = 0 /\ Dataset.batch_start eval = 0
  /\ (exists a,
        CIFAR100Data.data Fixture.one_file = Some a
        /\ Dataset.n train = Z.of_nat (length (CIFAR100Data.rows a))
        /\ length (Dataset.xs train) = length (CIFAR100Data.rows a))
  /\ (exists a,
        CIFAR100Data.data Fixture.one_file = Some a
        /\ Dataset.n eval = Z.of_nat (length (CIFAR100Data.rows a))
        /\ length (Dataset.xs eval) = length (CIFAR100Data.rows a))
  /\ CIFAR100Data.fine_labels Fixture.one_file = Some (Dataset.ys train)
  /\ CIFAR100Data.fine_labels Fixture.one_file = Some (Dataset.ys eval)
  /\ (exists names,
        CIFAR100Data.fine_label_names Fixture.one_name = Some names
        /\ length (AugmentedCIFAR100Data.raw_label_names _ _
                     Fixture.one_file_data)
           = length names).
Proof.
  apply (cifar100data_init_samplers nat Sample.rotation Fixture.plain
           rotation_ok Fixture.one_file Fixture.one_file Fixture.one_name
           0%nat 2%nat Fixture.one_file_data).
  vm_compute. reflexivity.
Defined.
